(** * NL2SQL agent strategies and retrieval tools: a shallow embedding

    The development follows three source files:
    - [tools/retrieval/vector_index_retrieval.py]
      ([vector_index_retrieve], [cogmo_search]);
    - [orchestration/strategies/nl2sql_advisor_strategy.py]
      ([NL2SQLAdvisorStrategy]);
    - [orchestration/strategies/nl2sql_single_agent_fewshot_creation_strategy.py]
      ([NL2SQLSingleAgentFewshotCreationStrategy]).

    Python values are represented by a small universe of JSON-like values,
    Python exceptions by an error result, the mutable local list
    [search_results] and the calls to external services by a state that is
    threaded through the body of the [try] block, and agent objects by
    references into a heap, since the transition table of the advisor
    strategy uses the agent objects themselves as dictionary keys. *)

From Stdlib Require Import ZArith String Ascii List Bool Lia.
From stdpp Require Import base option list strings gmap.

Set Warnings "-register-all".
Local Open Scope Z_scope.

(** ** Python strings

    A [string] stands for a Python [str] whose code points are all below
    256; one [ascii] is one code point. *)

Module PyStr.

(** [str.isspace] on one code point below 256: TAB..CR, FS..US, SPACE,
    NEL (0x85) and NBSP (0xA0). *)
Definition is_space (c : ascii) : bool :=
  let n := N_of_ascii c in
  ((9 <=? n) && (n <=? 13) || (28 <=? n) && (n <=? 32)
   || (n =? 133) || (n =? 160))%N.

Fixpoint lstrip (s : string) : string :=
  match s with
  | EmptyString => EmptyString
  | String c s' => if is_space c then lstrip s' else s
  end.

Fixpoint rev_onto (s acc : string) : string :=
  match s with
  | EmptyString => acc
  | String c s' => rev_onto s' (String c acc)
  end.

Definition reverse (s : string) : string := rev_onto s EmptyString.

Definition rstrip (s : string) : string := reverse (lstrip (reverse s)).

(** [s.strip()] *)
Definition strip (s : string) : string := rstrip (lstrip s).

(** Every character of [s] is whitespace. *)
Fixpoint all_space (s : string) : bool :=
  match s with
  | EmptyString => true
  | String c s' => is_space c && all_space s'
  end.

(** [s] does not begin, respectively end, with whitespace. *)
Definition starts_clean (s : string) : Prop :=
  match s with
  | EmptyString => True
  | String c _ => is_space c = false
  end.

Definition ends_clean (s : string) : Prop := starts_clean (reverse s).

(** [sep.join(parts)] *)
Fixpoint join (sep : string) (parts : list string) : string :=
  match parts with
  | [] => EmptyString
  | [p] => p
  | p :: rest => p +:+ sep +:+ join sep rest
  end.

Fixpoint starts_with (p s : string) : bool :=
  match p, s with
  | EmptyString, _ => true
  | String a p', String b s' => Ascii.eqb a b && starts_with p' s'
  | String _ _, EmptyString => false
  end.

(** [needle in s] for two [str] operands. *)
Fixpoint contains (needle s : string) : bool :=
  starts_with needle s ||
  match s with
  | EmptyString => false
  | String _ s' => contains needle s'
  end.

(** [needle] occurs in [s] as a substring. *)
Definition is_substring (needle s : string) : Prop :=
  exists before after, s = before +:+ needle +:+ after.

Definition digit_value (c : ascii) : option Z :=
  let n := N_of_ascii c in
  if ((48 <=? n) && (n <=? 57))%N then Some (Z.of_N n - 48) else None.

(** The digits of a decimal literal: digits, with single underscores
    allowed between two digits only.  [seen] counts the digits, [prev]
    tells whether the previous character was a digit. *)
Fixpoint parse_digits (acc : Z) (seen : nat) (prev : bool) (s : string)
  : option (Z * nat) :=
  match s with
  | EmptyString => if prev then Some (acc, seen) else None
  | String c s' =>
      match digit_value c with
      | Some d => parse_digits (10 * acc + d) (S seen) true s'
      | None =>
          if Ascii.eqb c "_"%char
          then (if prev then parse_digits acc seen false s' else None)
          else None
      end
  end.

(** The interpreter's default limit on the number of digits of a decimal
    literal converted by [int] ([sys.int_info.default_max_str_digits]). *)
Definition max_str_digits : nat := 4300.

(** The whitespace [int] skips around a literal.  It is not that of
    [str.strip]: among the ASCII characters [int] skips those of C's
    [isspace], TAB..CR and SPACE, and so not FS..US; beyond ASCII it
    skips the Unicode whitespace, here NEL and NBSP. *)
Definition is_int_space (c : ascii) : bool :=
  let n := N_of_ascii c in
  ((9 <=? n) && (n <=? 13) || (n =? 32) || (n =? 133) || (n =? 160))%N.

Fixpoint int_lstrip (s : string) : string :=
  match s with
  | EmptyString => EmptyString
  | String c s' => if is_int_space c then int_lstrip s' else s
  end.

Definition int_strip (s : string) : string :=
  reverse (int_lstrip (reverse (int_lstrip s))).

(** [int(s)] in base 10 for a [str]; [None] is [ValueError]. *)
Definition int_of_str (s : string) : option Z :=
  let t := int_strip s in
  let '(neg, body) :=
    match t with
    | String c r =>
        if Ascii.eqb c "-"%char then (true, r)
        else if Ascii.eqb c "+"%char then (false, r)
        else (false, t)
    | EmptyString => (false, t)
    end in
  match parse_digits 0 0 false body with
  | Some (z, n) =>
      if (n <=? max_str_digits)%nat
      then Some (if neg then - z else z) else None
  | None => None
  end.

End PyStr.

(** ** The words of the statements

    What the statements say of a result is written here on its own, apart
    from the functions of the embedding that compute it, and proved to
    agree with them further down. *)

Module Stated.

(** The code points below 256 that count as whitespace. *)
Definition whitespace : list nat :=
  [9; 10; 11; 12; 13; 28; 29; 30; 31; 32; 133; 160]%nat.

Definition is_whitespace (c : ascii) : Prop := In (nat_of_ascii c) whitespace.

(** Nothing but whitespace. *)
Fixpoint blank (s : string) : Prop :=
  match s with
  | EmptyString => True
  | String c s' => is_whitespace c /\ blank s'
  end.

Definition first_char (s : string) : option ascii :=
  match s with
  | EmptyString => None
  | String c _ => Some c
  end.

Fixpoint last_char (s : string) : option ascii :=
  match s with
  | EmptyString => None
  | String c EmptyString => Some c
  | String _ s' => last_char s'
  end.

(** No whitespace at either end. *)
Definition trimmed (s : string) : Prop :=
  (forall c, first_char s = Some c -> ~ is_whitespace c) /\
  (forall c, last_char s = Some c -> ~ is_whitespace c).

(** [core] is [content] without the whitespace around it. *)
Definition stripped (content core : string) : Prop :=
  exists before after,
    content = before +:+ core +:+ after /\
    blank before /\ blank after /\ trimmed core.

Definition line_feed : string := String (ascii_of_nat 10) EmptyString.

(** The entry of a document with this label (its path or title) and this
    content: the label, a colon and a space, the stripped content, and a
    newline. *)
Definition entry_of (labelled : string * string) (e : string) : Prop :=
  exists core,
    stripped (snd labelled) core /\
    e = fst labelled +:+ ": " +:+ core +:+ line_feed.

(** The parts in their order with one space between neighbours. *)
Definition spaced (parts : list string) : string :=
  match parts with
  | [] => EmptyString
  | p :: rest => fold_left (fun acc x => acc +:+ " " +:+ x) rest p
  end.

(** How many of [received] documents a limit [k] keeps: the first [k] of
    them when [k] is not negative, and all but the last [-k] of them when
    it is. *)
Definition kept (k : Z) (received : nat) : nat :=
  if 0 <=? k then Nat.min (Z.to_nat k) received
  else (received - Z.to_nat (- k))%nat.

End Stated.

(** ** Python values and exceptions *)

(** The exceptions raised by the modelled operations; all of them are
    subclasses of [Exception].  [AssertionError] is what the agent
    framework raises when it is asked to register a tool with an agent
    that has no usable LLM configuration.  [ExternalError] is whatever
    else a client library or a service call raises, again a subclass of
    [Exception]: a [KeyboardInterrupt] or [SystemExit] arriving from
    outside, which [except Exception] would let through, is not a failure
    of a call and has no place here. *)
Inductive exn : Type :=
| KeyError (key : string)
| TypeError
| ValueError
| AttributeError
| AssertionError
| ExternalError (msg : string).

Inductive res (A : Type) : Type :=
| Ok (a : A)
| Raise (e : exn).
Arguments Ok {A} a.
Arguments Raise {A} e.

(** JSON documents as [json.loads] and [response.json()] produce them, which
    are also the values the functions build themselves ([dict], [list],
    [str], [int], [bool], [None]).  A [float] is kept as its IEEE-754 bit
    pattern: the code never computes with one.  A [dict] is the list of its
    items in insertion order, keys pairwise distinct. *)
Inductive json : Type :=
| JNull
| JBool (b : bool)
| JInt (z : Z)
| JFloat (bits : Z)
| JStr (s : string)
| JArr (elems : list json)
| JObj (items : list (string * json)).

Abbreviation dict := (list (string * json)).

Module Py.

(** [d.get(key)] on a [dict]; Python's [None] result for a missing key is
    [JNull]. *)
Fixpoint dict_lookup (d : dict) (key : string) : option json :=
  match d with
  | [] => None
  | (k, v) :: d' => if String.eqb k key then Some v else dict_lookup d' key
  end.

Definition dict_get (d : dict) (key : string) : json :=
  match dict_lookup d key with
  | Some v => v
  | None => JNull
  end.

(** [d[key] = v] *)
Fixpoint dict_set (d : dict) (key : string) (v : json) : dict :=
  match d with
  | [] => [(key, v)]
  | (k, w) :: d' =>
      if String.eqb k key then (k, v) :: d' else (k, w) :: dict_set d' key v
  end.

(** [v[key]] with a [str] key. *)
Definition getitem (v : json) (key : string) : res json :=
  match v with
  | JObj d =>
      match dict_lookup d key with
      | Some x => Ok x
      | None => Raise (KeyError key)
      end
  | _ => Raise TypeError
  end.

(** Truth value of an object, as tested by [if v:]. *)
Definition truthy (v : json) : bool :=
  match v with
  | JNull => false
  | JBool b => b
  | JInt z => negb (z =? 0)
  | JFloat bits => negb ((bits =? 0) || (bits =? 2 ^ 63))
  | JStr s => negb (String.eqb s EmptyString)
  | JArr l => negb (Nat.eqb (length l) 0)
  | JObj d => negb (Nat.eqb (length d) 0)
  end.

(** [len(v)] *)
Definition len (v : json) : res nat :=
  match v with
  | JStr s => Ok (String.length s)
  | JArr l => Ok (length l)
  | JObj d => Ok (length d)
  | _ => Raise TypeError
  end.

Fixpoint chars (s : string) : list json :=
  match s with
  | EmptyString => []
  | String c s' => JStr (String c EmptyString) :: chars s'
  end.

(** The items a [for] loop over [v] visits. *)
Definition iter (v : json) : res (list json) :=
  match v with
  | JArr l => Ok l
  | JStr s => Ok (chars s)
  | JObj d => Ok (map (fun kv => JStr (fst kv)) d)
  | _ => Raise TypeError
  end.

(** [a + b] where the right operand is a [str]. *)
Definition add_str (a : json) (b : string) : res string :=
  match a with
  | JStr s => Ok (s +:+ b)
  | _ => Raise TypeError
  end.

(** [v.strip()] *)
Definition strip (v : json) : res string :=
  match v with
  | JStr s => Ok (PyStr.strip s)
  | _ => Raise AttributeError
  end.

(** [int(v)] for a value that is an [int] already or a [str]. *)
Definition int (v : Z + string) : res Z :=
  match v with
  | inl z => Ok z
  | inr s =>
      match PyStr.int_of_str s with
      | Some z => Ok z
      | None => Raise ValueError
      end
  end.

(** [os.getenv(name, default)]: the variable's value, a [str], when it is
    set, and the default, of whatever type it has, when it is not. *)
Definition getenv {D} (env : gmap string string) (name : string)
    (default : D) : D + string :=
  match env !! name with
  | Some s => inr s
  | None => inl default
  end.

(** [os.getenv(name, default)] with a [str] default. *)
Definition getenv_str (env : gmap string string) (name default : string)
  : string :=
  match env !! name with
  | Some s => s
  | None => default
  end.

(** [v == s] for a value that is a [bool] or a [str], against a [str]. *)
Definition eq_str (v : bool + string) (s : string) : bool :=
  match v with
  | inl _ => false
  | inr t => String.eqb t s
  end.

Definition int_or_str (v : Z + string) : json :=
  match v with
  | inl z => JInt z
  | inr s => JStr s
  end.

(** [l[0:stop]] on a list. *)
Definition slice_to {A} (l : list A) (stop : Z) : list A :=
  if stop <? 0
  then firstn (Z.to_nat (Z.max 0 (Z.of_nat (length l) + stop))) l
  else firstn (Z.to_nat stop) l.

(** The items a [for] loop over [v[0:stop]] visits.  A [dict] cannot be
    sliced (the exception is [KeyError] from Python 3.12 on). *)
Definition iter_slice_to (v : json) (stop : Z) : res (list json) :=
  match v with
  | JArr l => Ok (slice_to l stop)
  | JStr s => Ok (slice_to (chars s) stop)
  | _ => Raise TypeError
  end.

Definition is_str (s : string) (v : json) : bool :=
  match v with
  | JStr t => String.eqb s t
  | _ => false
  end.

(** [needle in v] for a [str] needle: substring test on a [str],
    membership on a [list], key membership on a [dict]. *)
Definition contains (needle : string) (v : json) : res bool :=
  match v with
  | JStr s => Ok (PyStr.contains needle s)
  | JArr l => Ok (existsb (is_str needle) l)
  | JObj d => Ok (existsb (fun kv => String.eqb needle (fst kv)) d)
  | _ => Raise TypeError
  end.

(** [str(v)] as an f-string prints a value that is a [str] or [None]. *)
Definition format_opt (v : option string) : string :=
  match v with
  | Some s => s
  | None => "None"
  end.

End Py.

(** ** Computations with a state and exceptions

    A computation takes the state, and gives the new state together with a
    value or the exception it raised; the state an exception leaves behind
    is kept, as Python keeps the objects mutated so far. *)

Module Eff.

Definition M (S A : Type) : Type := S -> S * res A.

Definition ret {S A} (a : A) : M S A := fun s => (s, Ok a).

Definition bind {S A B} (m : M S A) (k : A -> M S B) : M S B :=
  fun s =>
    match m s with
    | (s', Ok a) => k a s'
    | (s', Raise e) => (s', Raise e)
    end.

(** An operation of the interpreter that touches no state. *)
Definition lift {S A} (r : res A) : M S A := fun s => (s, r).

End Eff.

Notation "'let*' x ':=' m 'in' k" := (Eff.bind m (fun x => k))
  (at level 10, x name, m at level 100, k at level 200, only parsing).

(** [for x in xs: body(x)] *)
Fixpoint for_each {S A} (xs : list A) (body : A -> Eff.M S unit)
  : Eff.M S unit :=
  match xs with
  | [] => Eff.ret tt
  | x :: xs' => let* _ := body x in for_each xs' body
  end.

(** ** The retrieval tools ([tools/retrieval/vector_index_retrieval.py]) *)

Module Retrieval.

(** What an HTTP response object gives: [status_code], [text], and the
    outcome of [response.json()]. *)
Record response : Type := {
  status_code : Z;
  text : string;
  json_body : res json
}.

(** The calls that leave the process.  Logging and the reading of the clock
    are left out: they have no part in what the functions return. *)
Inductive event : Type :=
| EvEmbeddings (query : string)
| EvGetToken (scope : string)
| EvPost (url : string) (headers body : dict)
| EvGet (url : string) (params : dict).

(** What the outside answers during one invocation: the outcome of each
    constructor and of each call, should the function come to make it.  A
    function makes each of its calls at most once, so one outcome per call
    covers every way a service may answer the request it is sent.  The
    embedding is a list of floats, kept as bit patterns. *)
Record world : Type := {
  client_init : res unit;          (* AzureOpenAIClient() *)
  credential_init : res unit;      (* DefaultAzureCredential() *)
  embeddings : res (list Z);       (* aoai.get_embeddings(search_query) *)
  token : res string;              (* credential.get_token(scope).token *)
  post_response : res response;    (* requests.post(...) *)
  get_response : res response      (* requests.get(...) *)
}.

(** The state the body of the [try] block works on: the calls made so
    far and the local list [search_results].  Both survive an exception. *)
Record state : Type := {
  trace : list event;
  search_results : list string
}.

Definition M : Type -> Type := Eff.M state.

(** A call to an external service, with the outcome the world gives. *)
Definition call {A} (ev : event) (outcome : res A) : M A :=
  fun s =>
    ({| trace := trace s ++ [ev]; search_results := search_results s |},
     outcome).

(** [search_results.append(x)] *)
Definition append (x : string) : M unit :=
  fun s =>
    ({| trace := trace s; search_results := search_results s ++ [x] |},
     Ok tt).

Definition init : state := {| trace := []; search_results := [] |}.

Definition VECTOR_SEARCH_APPROACH : string := "vector".
Definition TERM_SEARCH_APPROACH : string := "term".
Definition HYBRID_SEARCH_APPROACH : string := "hybrid".

Definition token_scope : string := "https://search.azure.com/.default".

Definition newline : string := String (ascii_of_nat 10) EmptyString.

Section VectorIndexRetrieve.

Variable env : gmap string string.
Variable input : string.

Definition search_top_k : Z + string :=
  Py.getenv env "AZURE_SEARCH_TOP_K" 3.
Definition search_approach : string :=
  Py.getenv_str env "AZURE_SEARCH_APPROACH" "hybrid".
Definition use_semantic : bool + string :=
  Py.getenv env "AZURE_SEARCH_USE_SEMANTIC" false.
Definition semantic_search_config : string :=
  Py.getenv_str env "AZURE_SEARCH_SEMANTIC_SEARCH_CONFIG"
    "my-semantic-config".
Definition search_service : option string := env !! "AZURE_SEARCH_SERVICE".
Definition search_index : string :=
  Py.getenv_str env "AZURE_SEARCH_INDEX" "ragindex".
Definition search_api_version : string :=
  Py.getenv_str env "AZURE_SEARCH_API_VERSION" "2024-07-01".

Definition vector_query (embeddings_query : list Z) (k : Z) : json :=
  JArr [JObj [("kind", JStr "vector");
              ("vector", JArr (map JFloat embeddings_query));
              ("fields", JStr "contentVector");
              ("k", JInt k)]].

(** Lines 40-60: the body and the part that depends on the approach. *)
Definition approach_body (embeddings_query : list Z) : res dict :=
  let body := [("select", JStr "title, content, url, filepath, chunk_id");
               ("top", Py.int_or_str search_top_k)] in
  if String.eqb search_approach TERM_SEARCH_APPROACH then
    Ok (Py.dict_set body "search" (JStr input))
  else if String.eqb search_approach VECTOR_SEARCH_APPROACH then
    match Py.int search_top_k with
    | Ok k => Ok (Py.dict_set body "vectorQueries"
                    (vector_query embeddings_query k))
    | Raise e => Raise e
    end
  else if String.eqb search_approach HYBRID_SEARCH_APPROACH then
    let body := Py.dict_set body "search" (JStr input) in
    match Py.int search_top_k with
    | Ok k => Ok (Py.dict_set body "vectorQueries"
                    (vector_query embeddings_query k))
    | Raise e => Raise e
    end
  else Ok body.

(** Lines 62-64. *)
Definition add_semantic (body : dict) : dict :=
  if Py.eq_str use_semantic "true"
     && negb (String.eqb search_approach VECTOR_SEARCH_APPROACH)
  then Py.dict_set (Py.dict_set body "queryType" (JStr "semantic"))
         "semanticConfiguration" (JStr semantic_search_config)
  else body.

Definition prepare_body (embeddings_query : list Z) : res dict :=
  match approach_body embeddings_query with
  | Ok body => Ok (add_semantic body)
  | Raise e => Raise e
  end.

Definition headers (azureSearchKey : string) : dict :=
  [("Content-Type", JStr "application/json");
   ("Authorization", JStr ("Bearer " +:+ azureSearchKey))].

Definition search_endpoint : string :=
  "https://" +:+ Py.format_opt search_service
  +:+ ".search.windows.net/indexes/" +:+ search_index
  +:+ "/docs/search?api-version=" +:+ search_api_version.

(** Line 87, one turn of the loop. *)
Definition append_doc (doc : json) : M unit :=
  let* filepath := Eff.lift (Py.getitem doc "filepath") in
  let* prefix := Eff.lift (Py.add_str filepath ": ") in
  let* content := Eff.lift (Py.getitem doc "content") in
  let* stripped := Eff.lift (Py.strip content) in
  append (prefix +:+ stripped +:+ newline).

(** Lines 75-89. *)
Definition handle_response (r : response) : M unit :=
  let* json := Eff.lift (json_body r) in
  if status_code r >=? 400 then Eff.ret tt
  else
    let* value := Eff.lift (Py.getitem json "value") in
    if Py.truthy value then
      let* _ := Eff.lift (Py.len value) in
      let* docs := Eff.lift (Py.iter value) in
      for_each docs append_doc
    else Eff.ret tt.

(** Lines 29-92, the body of the [try] block. *)
Definition try_block (w : world) : M unit :=
  let* _ := Eff.lift (credential_init w) in
  let* embeddings_query := call (EvEmbeddings input) (embeddings w) in
  let* azureSearchKey := call (EvGetToken token_scope) (token w) in
  let* body := Eff.lift (prepare_body embeddings_query) in
  let* r := call (EvPost search_endpoint (headers azureSearchKey) body)
         (post_response w) in
  handle_response r.

(** The function: the calls it made and what it returns or raises.  The
    client is built before the [try]; an exception raised inside the
    [try] is logged and dropped, and the function goes on to join
    whatever [search_results] holds. *)
Definition vector_index_retrieve (w : world) : list event * res string :=
  match client_init w with
  | Raise e => ([], Raise e)
  | Ok _ =>
      let '(s, _) := try_block w init in
      (trace s, Ok (PyStr.join " " (search_results s)))
  end.

Definition cogmo_id : string := Py.getenv_str env "COGMO_ID" "".

Definition cogmo_endpoint : string :=
  "https://search.cogmo.jp/api/v3/" +:+ cogmo_id +:+ "/collection".

(** Line 135, one turn of the loop. *)
Definition append_cogmo_doc (doc : json) : M unit :=
  let* title := Eff.lift (Py.getitem doc "title") in
  let* prefix := Eff.lift (Py.add_str title ": ") in
  let* highlighting := Eff.lift (Py.getitem doc "highlighting") in
  let* stripped := Eff.lift (Py.strip highlighting) in
  append (prefix +:+ stripped +:+ newline).

(** Lines 123-137. *)
Definition handle_cogmo_response (r : response) : M unit :=
  let* json := Eff.lift (json_body r) in
  if status_code r >=? 400 then Eff.ret tt
  else
    let* resp := Eff.lift (Py.getitem json "response") in
    let* docs := Eff.lift (Py.getitem resp "docs") in
    if Py.truthy docs then
      let* _ := Eff.lift (Py.len docs) in
      let* k := Eff.lift (Py.int search_top_k) in
      let* first_docs := Eff.lift (Py.iter_slice_to docs k) in
      for_each first_docs append_cogmo_doc
    else Eff.ret tt.

(** Lines 119-140, the body of the [try] block. *)
Definition cogmo_try_block (w : world) : M unit :=
  let* r := call (EvGet cogmo_endpoint [("query", JStr input)])
         (get_response w) in
  handle_cogmo_response r.

Definition cogmo_search (w : world) : list event * res string :=
  let '(s, _) := cogmo_try_block w init in
  (trace s, Ok (PyStr.join " " (search_results s))).

End VectorIndexRetrieve.

(** *** Vocabulary for the statements *)

(** A search result document with a textual path and content. *)
Definition doc_fields (doc : json) (fields : string * string) : Prop :=
  Py.getitem doc "filepath" = Ok (JStr (fst fields)) /\
  Py.getitem doc "content" = Ok (JStr (snd fields)).

(** A cogmo document with a textual title and highlighting. *)
Definition cogmo_doc_fields (doc : json) (fields : string * string) : Prop :=
  Py.getitem doc "title" = Ok (JStr (fst fields)) /\
  Py.getitem doc "highlighting" = Ok (JStr (snd fields)).

(** The entry of one document: its path (or title), a colon and a space,
    the stripped content (or highlighting), and a newline. *)
Definition entry (fields : string * string) : string :=
  fst fields +:+ ": " +:+ PyStr.strip (snd fields) +:+ newline.

(** The invocation got as far as the search request and the service
    answered it with [r]. *)
Definition search_responds (env : gmap string string) (input : string)
    (w : world) (r : response) : Prop :=
  client_init w = Ok tt /\
  credential_init w = Ok tt /\
  exists embeddings_query azureSearchKey body,
    embeddings w = Ok embeddings_query /\
    token w = Ok azureSearchKey /\
    prepare_body env input embeddings_query = Ok body /\
    post_response w = Ok r.

(** Building the credential, the embedding call, the token request, the
    HTTP request or the parsing of the response raises (be it
    [response.json()] or the reading of the document list out of it), or
    the service answers with a status of 400 or more. *)
Definition search_fails (w : world) : Prop :=
  (exists e, credential_init w = Raise e) \/
  (exists e, embeddings w = Raise e) \/
  (exists e, token w = Raise e) \/
  (exists e, post_response w = Raise e) \/
  (exists r, post_response w = Ok r /\
             ((exists e, json_body r = Raise e) \/
              (exists j e, json_body r = Ok j /\
                           Py.getitem j "value" = Raise e) \/
              400 <= status_code r)).

(** The test of line 62, in terms of the environment: the variable is
    set to the string [true] and the approach is not the vector one. *)
Definition semantic_enabled (env : gmap string string) : Prop :=
  env !! "AZURE_SEARCH_USE_SEMANTIC" = Some "true" /\
  search_approach env <> VECTOR_SEARCH_APPROACH.

(** The request body carries the semantic query type and configuration. *)
Definition semantic_request (env : gmap string string) (body : dict)
  : Prop :=
  Py.dict_lookup body "queryType" = Some (JStr "semantic") /\
  Py.dict_lookup body "semanticConfiguration"
    = Some (JStr (semantic_search_config env)).

(** The request body has neither of the two keys. *)
Definition plain_request (body : dict) : Prop :=
  Py.dict_lookup body "queryType" = None /\
  Py.dict_lookup body "semanticConfiguration" = None.

(** *** Sample answers of the outside *)

Definition sample_docs : list json :=
  [JObj [("title", JStr "One"); ("highlighting", JStr " first ");
         ("filepath", JStr "one.md"); ("content", JStr " alpha ")];
   JObj [("title", JStr "Two"); ("highlighting", JStr "second");
         ("filepath", JStr "two.md"); ("content", JStr "beta")];
   JObj [("title", JStr "Three"); ("highlighting", JStr "third");
         ("filepath", JStr "three.md"); ("content", JStr "gamma")];
   JObj [("title", JStr "Four"); ("highlighting", JStr "fourth");
         ("filepath", JStr "four.md"); ("content", JStr "delta")]].

Definition sample_response (docs : list json) : response :=
  {| status_code := 200;
     text := "";
     json_body :=
       Ok (JObj [("value", JArr docs);
                 ("response", JObj [("docs", JArr docs)])]) |}.

(** Every constructor and call succeeds, and both services answer with
    [docs]. *)
Definition sample_world (docs : list json) : world :=
  {| client_init := Ok tt;
     credential_init := Ok tt;
     embeddings := Ok [0; 1];
     token := Ok "key";
     post_response := Ok (sample_response docs);
     get_response := Ok (sample_response docs) |}.

(** The embedding service is down; everything else would work. *)
Definition embeddings_down : world :=
  {| client_init := Ok tt;
     credential_init := Ok tt;
     embeddings := Raise (ExternalError "embedding service unavailable");
     token := Ok "key";
     post_response := Ok (sample_response sample_docs);
     get_response := Ok (sample_response sample_docs) |}.

(** The client cannot even be built. *)
Definition no_client : world :=
  {| client_init := Raise (ExternalError "missing configuration");
     credential_init := Ok tt;
     embeddings := Ok [0; 1];
     token := Ok "key";
     post_response := Ok (sample_response sample_docs);
     get_response := Ok (sample_response sample_docs) |}.

(** The second document of the answer has no content. *)
Definition broken_docs : list json :=
  [JObj [("filepath", JStr "one.md"); ("content", JStr " alpha ")];
   JObj [("filepath", JStr "two.md")]].

(** *** Vocabulary for further statements *)

(** The GET request or the parsing of its answer raises (be it
    [response.json()] or the reading of the document list out of it), or
    the service answers with a status of 400 or more. *)
Definition cogmo_fails (w : world) : Prop :=
  (exists e, get_response w = Raise e) \/
  (exists r, get_response w = Ok r /\
             ((exists e, json_body r = Raise e) \/
              400 <= status_code r \/
              (exists j e, json_body r = Ok j /\
                           Py.getitem j "response" = Raise e) \/
              (exists j resp e, json_body r = Ok j /\
                                Py.getitem j "response" = Ok resp /\
                                Py.getitem resp "docs" = Raise e))).

(** A document that lacks a textual path or a textual content. *)
Definition doc_broken (doc : json) : Prop :=
  ~ exists fields, doc_fields doc fields.

(** The approach is none of the three the function knows. *)
Definition unknown_approach (env : gmap string string) : Prop :=
  search_approach env <> TERM_SEARCH_APPROACH /\
  search_approach env <> VECTOR_SEARCH_APPROACH /\
  search_approach env <> HYBRID_SEARCH_APPROACH.

(** The cogmo service cannot be reached. *)
Definition cogmo_down : world :=
  {| client_init := Ok tt;
     credential_init := Ok tt;
     embeddings := Ok [0; 1];
     token := Ok "key";
     post_response := Ok (sample_response sample_docs);
     get_response := Raise (ExternalError "connection refused") |}.

End Retrieval.

(** ** The agent strategies ([orchestration/strategies]) *)

Module Strategy.

(** A reference to an agent object: its position in the heap. *)
Abbreviation ref := nat.

Inductive agent_class : Type :=
| UserProxyAgent
| AssistantAgent.

Definition get_schema_info_description : string :=
  "Retrieve a list of all table names and their descriptions from the data dictionary.".
Definition get_all_tables_info_description : string :=
  "Retrieve schema information from the data dictionary. Provide table_name or column_name to get information about the table or column.".
Definition execute_sql_query_description : string :=
  "Execute an SQL query and return the results as a list of dictionaries. Each dictionary represents a row.".
Definition validate_sql_query_description : string :=
  "Validate the syntax of an SQL query. Returns is_valid as True if valid, or is_valid as False with an error message if invalid.".

Section Agents.

(** The type of LLM configurations and of conversation histories, both
    passed through untouched. *)
Variables LLMConfig History : Type.

(** An agent object: the keyword arguments of its constructor ([None]
    for an argument the call leaves to the framework's default), then
    what [register_for_llm] and [register_for_execution] add to it. *)
Record agent : Type := {
  class : agent_class;
  name : string;
  description : option string;
  system_message : string;
  human_input_mode : string;
  code_execution_config : option bool;
  llm_config : option LLMConfig;
  is_termination_msg : option (dict -> res bool);
  llm_tools : list (string * string);
  function_map : list string
}.

(** The part of the framework the strategies call, which is not among the
    sources: what each of its calls answers.  A constructor is judged on
    the arguments it is given, a registration on the objects as they are
    and on the agent it is made with.  Each may raise, as the constructors
    and [register_for_llm] do on an LLM configuration they cannot use. *)
Record framework : Type := {
  init_agent : agent -> res unit;
  register_for_llm : list agent -> ref -> string -> string -> res unit;
  register_for_execution : list agent -> ref -> string -> res unit
}.

(** The heap is the list of the agent objects created so far. *)
Definition M : Type -> Type := Eff.M (list agent).

(** Calling a constructor: when it accepts its arguments the new object
    gets the next free place; when it raises there is no object. *)
Definition new (autogen : framework) (a : agent) : M ref :=
  fun h =>
    match init_agent autogen a with
    | Ok _ => (h ++ [a], Ok (length h))
    | Raise e => (h, Raise e)
    end.

Definition add_llm_tool (tool_name tool_description : string) (a : agent)
  : agent :=
  {| class := class a; name := name a; description := description a;
     system_message := system_message a;
     human_input_mode := human_input_mode a;
     code_execution_config := code_execution_config a;
     llm_config := llm_config a;
     is_termination_msg := is_termination_msg a;
     llm_tools := llm_tools a ++ [(tool_name, tool_description)];
     function_map := function_map a |}.

Definition add_function (tool_name : string) (a : agent) : agent :=
  {| class := class a; name := name a; description := description a;
     system_message := system_message a;
     human_input_mode := human_input_mode a;
     code_execution_config := code_execution_config a;
     llm_config := llm_config a;
     is_termination_msg := is_termination_msg a;
     llm_tools := llm_tools a;
     function_map := function_map a ++ [tool_name] |}.

(** [register_function(f, caller=, executor=, name=, description=)], and
    equally the decorator pair [@executor.register_for_execution()]
    over [@caller.register_for_llm(description=)]: the caller is told
    of the tool, then the executor is given the function.  A call of the
    framework that raises changes nothing itself; what the call before it
    did stays. *)
Definition register_function (autogen : framework)
    (tool_name tool_description : string) (caller executor : ref) : M unit :=
  fun h =>
    match register_for_llm autogen h caller tool_name tool_description with
    | Raise e => (h, Raise e)
    | Ok _ =>
        let h1 := alter (add_llm_tool tool_name tool_description) caller h in
        match register_for_execution autogen h1 executor tool_name with
        | Raise e => (h1, Raise e)
        | Ok _ => (alter (add_function tool_name) executor h1, Ok tt)
        end
    end.

(** The lambda both strategies pass as [is_termination_msg]:
    [msg.get("content") is not None and "TERMINATE" in msg["content"]]. *)
Definition termination_lambda (msg : dict) : res bool :=
  match Py.dict_get msg "content" with
  | JNull => Ok false
  | content => Py.contains "TERMINATE" content
  end.

Definition is_dict (v : json) : bool :=
  match v with
  | JObj _ => true
  | _ => false
  end.

(** The shapes of a message's content: a [str], [None] or no content at
    all, or a list of dictionaries (the parts of a composite message). *)
Definition text_content (msg : dict) : Prop :=
  match Py.dict_lookup msg "content" with
  | None | Some JNull | Some (JStr _) => True
  | Some (JArr parts) => forallb is_dict parts = true
  | Some _ => False
  end.

(** What the strategy object inherits from its base class, which is not
    among the sources: [_read_prompt(name, placeholders=None)] and
    [_summarize_conversation(history)], either of which may raise. *)
Record base_strategy : Type := {
  _read_prompt : string -> option (list (string * string)) -> res string;
  _summarize_conversation : History -> res string
}.

(** The dictionary the advisor strategy returns. *)
Record agent_configuration : Type := {
  agents : list ref;
  transitions : list (ref * list ref);
  transitions_type : string
}.

(** What [create_agents] returns: that dictionary, or a plain list of
    agents. *)
Inductive created : Type :=
| Configuration (c : agent_configuration)
| AgentList (l : list ref).

Definition created_agents (r : created) : list ref :=
  match r with
  | Configuration c => agents c
  | AgentList l => l
  end.

(** The value under the key ["transitions"], when there is one. *)
Definition created_transitions (r : created)
  : option (list (ref * list ref)) :=
  match r with
  | Configuration c => Some (transitions c)
  | AgentList _ => None
  end.

(** [table[agent]] on a transition table, whose keys are agent
    objects. *)
Fixpoint successors (table : list (ref * list ref)) (agent : ref)
  : option (list ref) :=
  match table with
  | [] => None
  | (k, v) :: table' =>
      if Nat.eqb k agent then Some v else successors table' agent
  end.

(** The names of the objects of a heap, in order of creation. *)
Definition names (h : list agent) : list string := map name h.

(** The prompts and the summary the advisor strategy asks its base
    class for are all delivered. *)
Definition advisor_prompts_load (self : base_strategy)
    (history : History) : Prop :=
  exists p1 s p2 p3,
    _read_prompt self "user_proxy" None = Ok p1 /\
    _summarize_conversation self history = Ok s /\
    _read_prompt self "nl2sql_assistant"
      (Some [("conversation_summary", s)]) = Ok p2 /\
    _read_prompt self "advisor" None = Ok p3.

(** The same for the few-shot strategy, which has no advisor. *)
Definition fewshot_prompts_load (self : base_strategy)
    (history : History) : Prop :=
  exists p1 s p2,
    _read_prompt self "user_proxy" None = Ok p1 /\
    _summarize_conversation self history = Ok s /\
    _read_prompt self "nl2sql_assistant"
      (Some [("conversation_summary", s)]) = Ok p2.

(** The framework raises at none of its calls. *)
Definition accepts (autogen : framework) : Prop :=
  (forall a, init_agent autogen a = Ok tt) /\
  (forall h caller tool_name tool_description,
     register_for_llm autogen h caller tool_name tool_description = Ok tt) /\
  (forall h executor tool_name,
     register_for_execution autogen h executor tool_name = Ok tt).

(** A framework that accepts everything. *)
Definition lenient : framework :=
  {| init_agent := fun _ => Ok tt;
     register_for_llm := fun _ _ _ _ => Ok tt;
     register_for_execution := fun _ _ _ => Ok tt |}.

(** A framework that will not tell an agent of a tool unless the agent has
    an LLM configuration it can use. *)
Definition demanding (usable : LLMConfig -> bool) : framework :=
  {| init_agent := fun _ => Ok tt;
     register_for_llm := fun h caller _ _ =>
       match h !! caller with
       | Some a =>
           match llm_config a with
           | Some c => if usable c then Ok tt else Raise AssertionError
           | None => Raise AssertionError
           end
       | None => Raise AssertionError
       end;
     register_for_execution := fun _ _ _ => Ok tt |}.

(** The names of the tools an agent may ask for. *)
Definition tools_offered (a : agent) : list string := map fst (llm_tools a).

(** A number or a boolean. *)
Definition is_number (v : json) : bool :=
  match v with
  | JBool _ | JInt _ | JFloat _ => true
  | _ => false
  end.

(** The three agents of the advisor strategy as a run that returns leaves
    them, with the prompts they were given. *)
Definition advisor_agents (llm : LLMConfig) (p1 p2 p3 : string)
  : list agent :=
  [ {| class := UserProxyAgent; name := "user"; description := None;
       system_message := p1; human_input_mode := "NEVER";
       code_execution_config := Some false; llm_config := None;
       is_termination_msg := Some termination_lambda;
       llm_tools := [];
       function_map :=
         ["get_schema_info"; "get_all_tables_info"; "execute_sql_query";
          "validate_sql_query"; "get_today_date"; "get_time"] |};
    {| class := AssistantAgent; name := "assistant";
       description := Some "Generates SQL queries, considers advisor recommendations, and executes queries after feedback.";
       system_message := p2; human_input_mode := "NEVER";
       code_execution_config := None; llm_config := Some llm;
       is_termination_msg := Some termination_lambda;
       llm_tools :=
         [("get_schema_info", get_schema_info_description);
          ("get_all_tables_info", get_all_tables_info_description);
          ("execute_sql_query", execute_sql_query_description);
          ("get_today_date",
           "Provides today's date in the format YYYY-MM-DD.");
          ("get_time", "Provides the current time in the format HH:MM.")];
       function_map := [] |};
    {| class := AssistantAgent; name := "advisor";
       description := Some "Reviews and rewrites SQL queries as needed for optimal execution.";
       system_message := p3; human_input_mode := "NEVER";
       code_execution_config := None; llm_config := Some llm;
       is_termination_msg := None;
       llm_tools := [("validate_sql_query", validate_sql_query_description)];
       function_map := [] |} ].

(** The two agents of the few-shot strategy as a run that returns leaves
    them. *)
Definition fewshot_agents (llm : LLMConfig) (p1 p2 : string) : list agent :=
  [ {| class := UserProxyAgent; name := "user"; description := None;
       system_message := p1; human_input_mode := "NEVER";
       code_execution_config := Some false; llm_config := None;
       is_termination_msg := Some termination_lambda;
       llm_tools := [];
       function_map :=
         ["get_schema_info"; "get_all_tables_info"; "validate_sql_query";
          "execute_sql_query"; "vector_index_retrieve"] |};
    {| class := AssistantAgent; name := "assistant"; description := None;
       system_message := p2; human_input_mode := "NEVER";
       code_execution_config := None; llm_config := Some llm;
       is_termination_msg := None;
       llm_tools :=
         [("get_schema_info", get_schema_info_description);
          ("get_all_tables_info", get_all_tables_info_description);
          ("validate_sql_query", validate_sql_query_description);
          ("execute_sql_query", execute_sql_query_description);
          ("vector_index_retrieve",
           "Search for similar queries before the assistant generate a new query. Return sources.")];
       function_map := [] |} ].

(** The table the advisor strategy returns over three agents. *)
Definition advisor_configuration (user_proxy assistant advisor : ref)
  : agent_configuration :=
  {| agents := [user_proxy; assistant; advisor];
     transitions :=
       [(advisor, [user_proxy; assistant]);
        (user_proxy, [assistant]);
        (assistant, [advisor; user_proxy])];
     transitions_type := "allowed" |}.

(** A base class whose prompts are the names asked for and whose
    summary is fixed, to run the strategies on. *)
Definition echo_base (summary : string) : base_strategy :=
  {| _read_prompt := fun prompt _ => Ok prompt;
     _summarize_conversation := fun _ => Ok summary |}.

End Agents.

Abbreviation heap LLMConfig := (list (agent LLMConfig)).

Arguments echo_base {History} summary.
Arguments tools_offered {LLMConfig} a.
Arguments advisor_agents {LLMConfig} llm p1 p2 p3.
Arguments fewshot_agents {LLMConfig} llm p1 p2.
Arguments class {LLMConfig} a.
Arguments name {LLMConfig} a.
Arguments description {LLMConfig} a.
Arguments system_message {LLMConfig} a.
Arguments human_input_mode {LLMConfig} a.
Arguments code_execution_config {LLMConfig} a.
Arguments llm_config {LLMConfig} a.
Arguments is_termination_msg {LLMConfig} a.
Arguments llm_tools {LLMConfig} a.
Arguments function_map {LLMConfig} a.
Arguments init_agent {LLMConfig} f a.
Arguments register_for_llm {LLMConfig} f.
Arguments register_for_execution {LLMConfig} f.
Arguments new {LLMConfig} autogen a.
Arguments add_llm_tool {LLMConfig} tool_name tool_description a.
Arguments add_function {LLMConfig} tool_name a.
Arguments register_function {LLMConfig} autogen.
Arguments accepts {LLMConfig} autogen.
Arguments lenient {LLMConfig}.
Arguments demanding {LLMConfig} usable.
Arguments _read_prompt {History} b.
Arguments _summarize_conversation {History} b.
Arguments names {LLMConfig} h.
Arguments advisor_prompts_load {History} self history.
Arguments fewshot_prompts_load {History} self history.

End Strategy.

Module NL2SQLAdvisorStrategy.
Import Strategy.

Section Methods.

Context {LLMConfig History : Type}.

(** The framework, imported from [autogen], and the strategy object. *)
Variable autogen : framework LLMConfig.
Variable self : base_strategy History.

Definition max_rounds : Z := let _ := self in 30.

Definition send_introductions : bool := let _ := self in true.

Definition create_agents (llm_config : LLMConfig) (history : History)
  : M LLMConfig (created) :=
  let* user_proxy_prompt := Eff.lift (_read_prompt self "user_proxy" None) in
  let* user_proxy := new autogen
    {| class := UserProxyAgent;
       name := "user";
       description := None;
       system_message := user_proxy_prompt;
       human_input_mode := "NEVER";
       code_execution_config := Some false;
       llm_config := None;
       is_termination_msg := Some termination_lambda;
       llm_tools := [];
       function_map := [] |} in
  let* conversation_summary :=
    Eff.lift (_summarize_conversation self history) in
  let* assistant_prompt :=
    Eff.lift (_read_prompt self "nl2sql_assistant"
                (Some [("conversation_summary", conversation_summary)])) in
  let* assistant := new autogen
    {| class := AssistantAgent;
       name := "assistant";
       description := Some "Generates SQL queries, considers advisor recommendations, and executes queries after feedback.";
       system_message := assistant_prompt;
       human_input_mode := "NEVER";
       code_execution_config := None;
       llm_config := Some llm_config;
       is_termination_msg := Some termination_lambda;
       llm_tools := [];
       function_map := [] |} in
  let* advisor_prompt := Eff.lift (_read_prompt self "advisor" None) in
  let* advisor := new autogen
    {| class := AssistantAgent;
       name := "advisor";
       description := Some "Reviews and rewrites SQL queries as needed for optimal execution.";
       system_message := advisor_prompt;
       human_input_mode := "NEVER";
       code_execution_config := None;
       llm_config := Some llm_config;
       is_termination_msg := None;
       llm_tools := [];
       function_map := [] |} in
  let* _ := register_function autogen "get_schema_info"
              get_schema_info_description assistant user_proxy in
  let* _ := register_function autogen "get_all_tables_info"
              get_all_tables_info_description assistant user_proxy in
  let* _ := register_function autogen "execute_sql_query"
              execute_sql_query_description assistant user_proxy in
  let* _ := register_function autogen "validate_sql_query"
              validate_sql_query_description advisor user_proxy in
  let* _ := register_function autogen "get_today_date"
              "Provides today's date in the format YYYY-MM-DD."
              assistant user_proxy in
  let* _ := register_function autogen "get_time"
              "Provides the current time in the format HH:MM."
              assistant user_proxy in
  let allowed_transitions :=
    [(advisor, [user_proxy; assistant]);
     (user_proxy, [assistant]);
     (assistant, [advisor; user_proxy])] in
  Eff.ret (Configuration
             {| agents := [user_proxy; assistant; advisor];
                transitions := allowed_transitions;
                transitions_type := "allowed" |}).

End Methods.

End NL2SQLAdvisorStrategy.

Module NL2SQLSingleAgentFewshotCreationStrategy.
Import Strategy.

Section Methods.

Context {LLMConfig History : Type}.

(** The framework, imported from [autogen], and the strategy object. *)
Variable autogen : framework LLMConfig.
Variable self : base_strategy History.

Definition max_rounds : Z := let _ := self in 20.

Definition send_introductions : bool := let _ := self in false.

Definition create_agents (llm_config : LLMConfig) (history : History)
  : M LLMConfig (created) :=
  let* user_proxy_prompt := Eff.lift (_read_prompt self "user_proxy" None) in
  let* user_proxy := new autogen
    {| class := UserProxyAgent;
       name := "user";
       description := None;
       system_message := user_proxy_prompt;
       human_input_mode := "NEVER";
       code_execution_config := Some false;
       llm_config := None;
       is_termination_msg := Some termination_lambda;
       llm_tools := [];
       function_map := [] |} in
  let* conversation_summary :=
    Eff.lift (_summarize_conversation self history) in
  let* assistant_prompt :=
    Eff.lift (_read_prompt self "nl2sql_assistant"
                (Some [("conversation_summary", conversation_summary)])) in
  let* assistant := new autogen
    {| class := AssistantAgent;
       name := "assistant";
       description := None;
       system_message := assistant_prompt;
       human_input_mode := "NEVER";
       code_execution_config := None;
       llm_config := Some llm_config;
       is_termination_msg := None;
       llm_tools := [];
       function_map := [] |} in
  let* _ := register_function autogen "get_schema_info"
              get_schema_info_description assistant user_proxy in
  let* _ := register_function autogen "get_all_tables_info"
              get_all_tables_info_description assistant user_proxy in
  let* _ := register_function autogen "validate_sql_query"
              validate_sql_query_description assistant user_proxy in
  let* _ := register_function autogen "execute_sql_query"
              execute_sql_query_description assistant user_proxy in
  let* _ := register_function autogen "vector_index_retrieve"
              "Search for similar queries before the assistant generate a new query. Return sources."
              assistant user_proxy in
  Eff.ret (AgentList [user_proxy; assistant]).

End Methods.

End NL2SQLSingleAgentFewshotCreationStrategy.

(** * Properties *)

(** ** Strings *)

Lemma starts_with_iff (p s : string) :
  PyStr.starts_with p s = true <-> exists rest, s = p +:+ rest.
Proof.
  revert s. induction p as [|a p IH]; intros s; simpl.
  - split; eauto.
  - destruct s as [|b s].
    + split; [discriminate | intros [rest H]; discriminate].
    + rewrite andb_true_iff, Ascii.eqb_eq, IH. split.
      * intros [-> [rest ->]]. now exists rest.
      * intros [rest H]. injection H as -> ->. eauto.
Qed.

Lemma contains_iff (needle s : string) :
  PyStr.contains needle s = true <-> PyStr.is_substring needle s.
Proof.
  unfold PyStr.is_substring. induction s as [|c s IH]; simpl.
  - rewrite orb_false_r, starts_with_iff. split.
    + intros [rest H]. now exists EmptyString, rest.
    + intros ([|b before] & after & H); [eauto | discriminate].
  - rewrite orb_true_iff, starts_with_iff, IH. split.
    + intros [[rest H] | (before & after & H)].
      * now exists EmptyString, rest.
      * exists (String c before), after. simpl. now rewrite H.
    + intros ([|b before] & after & H).
      * left. eauto.
      * right. injection H as -> ->. eauto.
Qed.

Lemma append_assoc (a b c : string) : (a +:+ b) +:+ c = a +:+ b +:+ c.
Proof.
  induction a as [|x a IH]; [reflexivity|].
  change (String x ((a +:+ b) +:+ c) = String x (a +:+ b +:+ c)).
  now rewrite IH.
Qed.

Lemma append_empty_r (a : string) : a +:+ EmptyString = a.
Proof.
  induction a as [|x a IH]; [reflexivity|].
  change (String x (a +:+ EmptyString) = String x a). now rewrite IH.
Qed.

Lemma rev_onto_app (s acc : string) :
  PyStr.rev_onto s acc = PyStr.reverse s +:+ acc.
Proof.
  unfold PyStr.reverse. revert acc.
  induction s as [|c s IH]; intros acc; [reflexivity|].
  cbn [PyStr.rev_onto]. rewrite IH, (IH (String c EmptyString)).
  now rewrite append_assoc.
Qed.

Lemma reverse_cons (c : ascii) (s : string) :
  PyStr.reverse (String c s) = PyStr.reverse s +:+ String c EmptyString.
Proof. unfold PyStr.reverse at 1. cbn [PyStr.rev_onto]. apply rev_onto_app. Qed.

Lemma reverse_app (a b : string) :
  PyStr.reverse (a +:+ b) = PyStr.reverse b +:+ PyStr.reverse a.
Proof.
  induction a as [|c a IH].
  - change (EmptyString +:+ b) with b. now rewrite append_empty_r.
  - change (String c a +:+ b) with (String c (a +:+ b)).
    now rewrite !reverse_cons, IH, append_assoc.
Qed.

Lemma reverse_involutive (s : string) : PyStr.reverse (PyStr.reverse s) = s.
Proof.
  induction s as [|c s IH]; [reflexivity|].
  rewrite reverse_cons, reverse_app, IH. reflexivity.
Qed.

Lemma all_space_app (a b : string) :
  PyStr.all_space (a +:+ b) = PyStr.all_space a && PyStr.all_space b.
Proof.
  induction a as [|c a IH]; [reflexivity|].
  change (String c a +:+ b) with (String c (a +:+ b)).
  cbn [PyStr.all_space]. now rewrite IH, andb_assoc.
Qed.

Lemma all_space_reverse (s : string) : PyStr.all_space (PyStr.reverse s) = PyStr.all_space s.
Proof.
  induction s as [|c s IH]; [reflexivity|].
  rewrite reverse_cons, all_space_app, IH. cbn [PyStr.all_space].
  rewrite andb_true_r. apply andb_comm.
Qed.

Lemma lstrip_spec (s : string) :
  exists before,
    s = before +:+ PyStr.lstrip s /\ PyStr.all_space before = true /\
    PyStr.starts_clean (PyStr.lstrip s).
Proof.
  induction s as [|c s (before & Hs & Hsp & Hclean)].
  - exists EmptyString. repeat split.
  - cbn [PyStr.lstrip]. destruct (PyStr.is_space c) eqn:Hc.
    + exists (String c before). repeat split; auto.
      * change (String c before +:+ PyStr.lstrip s)
          with (String c (before +:+ PyStr.lstrip s)). now rewrite <- Hs.
      * cbn [PyStr.all_space]. now rewrite Hc.
    + exists EmptyString. repeat split; auto.
Qed.

Lemma rstrip_spec (s : string) :
  exists after,
    s = PyStr.rstrip s +:+ after /\ PyStr.all_space after = true /\
    PyStr.ends_clean (PyStr.rstrip s).
Proof.
  unfold PyStr.rstrip, PyStr.ends_clean.
  destruct (lstrip_spec (PyStr.reverse s)) as (before & Hs & Hsp & Hclean).
  exists (PyStr.reverse before). repeat split.
  - rewrite <- reverse_app, <- Hs. now rewrite reverse_involutive.
  - now rewrite all_space_reverse.
  - now rewrite reverse_involutive.
Qed.

(** [strip] takes whitespace off both ends and nothing else: what is left
    neither begins nor ends with whitespace. *)
Lemma strip_spec (s : string) :
  exists before after,
    s = before +:+ PyStr.strip s +:+ after /\
    PyStr.all_space before = true /\ PyStr.all_space after = true /\
    PyStr.starts_clean (PyStr.strip s) /\ PyStr.ends_clean (PyStr.strip s).
Proof.
  unfold PyStr.strip.
  destruct (lstrip_spec s) as (before & Hs & Hb & Hclean).
  destruct (rstrip_spec (PyStr.lstrip s)) as (after & Ht & Ha & Hend).
  exists before, after. repeat split; auto.
  - now rewrite <- Ht.
  - destruct (PyStr.rstrip (PyStr.lstrip s)) as [|c t] eqn:Hr; [exact I|].
    rewrite Ht in Hclean. exact Hclean.
Qed.

Example strip_example :
  PyStr.strip ("  a b " +:+ String (ascii_of_nat 10) EmptyString) = "a b".
Proof. reflexivity. Qed.

Example join_example : PyStr.join " " ["a"; "b"; "c"] = "a b c".
Proof. reflexivity. Qed.

Example int_of_str_examples :
  PyStr.int_of_str " +1_0 " = Some 10 /\
  PyStr.int_of_str "-7" = Some (-7) /\
  PyStr.int_of_str "1__0" = None /\
  PyStr.int_of_str "" = None /\
  PyStr.int_of_str "three" = None.
Proof. repeat split. Qed.

(** A file separator before the digits is whitespace to [strip] and not to
    [int]; a no-break space is whitespace to both. *)
Example int_of_str_separators :
  PyStr.int_of_str (String (ascii_of_nat 28) "2") = None /\
  PyStr.strip (String (ascii_of_nat 28) "2") = "2" /\
  PyStr.int_of_str (String (ascii_of_nat 160) "2") = Some 2 /\
  PyStr.int_of_str (String (ascii_of_nat 9) "2" +:+ " ") = Some 2.
Proof. repeat split. Qed.

Example slice_to_examples :
  Py.slice_to [1; 2; 3] 2 = [1; 2] /\
  Py.slice_to [1; 2; 3] 5 = [1; 2; 3] /\
  Py.slice_to [1; 2; 3] 0 = [] /\
  Py.slice_to [1; 2; 3] (-1) = [1; 2].
Proof. repeat split. Qed.

(** ** The words of the statements and the functions *)

Lemma is_space_whitespace (c : ascii) :
  PyStr.is_space c = true <-> Stated.is_whitespace c.
Proof.
  unfold Stated.is_whitespace, Stated.whitespace.
  destruct c as [[] [] [] [] [] [] [] []]; vm_compute;
    (split; [intros H; try discriminate; tauto
            | intros H; try reflexivity;
              repeat (destruct H as [H | H]; [discriminate|]);
              destruct H]).
Qed.

Lemma all_space_blank (s : string) :
  PyStr.all_space s = true <-> Stated.blank s.
Proof.
  induction s as [|c s IH]; cbn; [tauto|].
  now rewrite andb_true_iff, is_space_whitespace, IH.
Qed.

Lemma first_char_reverse (s : string) :
  Stated.first_char (PyStr.reverse s) = Stated.last_char s.
Proof.
  induction s as [|c s IH]; [reflexivity|].
  rewrite reverse_cons. destruct s as [|d s]; [reflexivity|].
  change (Stated.last_char (String c (String d s)))
    with (Stated.last_char (String d s)).
  rewrite <- IH.
  destruct (PyStr.reverse (String d s)) as [|x t] eqn:Hrev; [|reflexivity].
  apply (f_equal PyStr.reverse) in Hrev. rewrite reverse_involutive in Hrev.
  discriminate.
Qed.

Lemma starts_clean_first (s : string) :
  PyStr.starts_clean s <->
  forall c, Stated.first_char s = Some c -> ~ Stated.is_whitespace c.
Proof.
  destruct s as [|c s]; cbn.
  - split; [discriminate | tauto].
  - rewrite <- not_true_iff_false, is_space_whitespace. split.
    + intros H c' [= <-]. exact H.
    + intros H. now apply H.
Qed.

Lemma clean_trimmed (s : string) :
  PyStr.starts_clean s /\ PyStr.ends_clean s <-> Stated.trimmed s.
Proof.
  unfold PyStr.ends_clean, Stated.trimmed.
  now rewrite !starts_clean_first, first_char_reverse.
Qed.

(** [strip] gives what the statements call the stripped content. *)
Lemma strip_stripped (content : string) :
  Stated.stripped content (PyStr.strip content).
Proof.
  destruct (strip_spec content)
    as (before & after & Hs & Hb & Ha & Hstart & Hend).
  exists before, after. rewrite <- !all_space_blank, <- clean_trimmed. auto.
Qed.

Lemma lstrip_all_space (s : string) :
  PyStr.all_space s = true -> PyStr.lstrip s = EmptyString.
Proof.
  induction s as [|c s IH]; [reflexivity|].
  cbn. destruct (PyStr.is_space c); [exact IH | discriminate].
Qed.

Lemma lstrip_blank_app (before s : string) :
  PyStr.all_space before = true ->
  PyStr.lstrip (before +:+ s) = PyStr.lstrip s.
Proof.
  induction before as [|c before IH]; [reflexivity|].
  cbn [PyStr.all_space]. rewrite andb_true_iff. intros [Hc Hb].
  change (String c before +:+ s) with (String c (before +:+ s)).
  cbn [PyStr.lstrip]. rewrite Hc. now apply IH.
Qed.

Lemma lstrip_clean (s : string) : PyStr.starts_clean s -> PyStr.lstrip s = s.
Proof.
  destruct s as [|c s]; [reflexivity|]. cbn. now intros ->.
Qed.

Lemma starts_clean_app (s after : string) :
  PyStr.starts_clean s -> s <> EmptyString -> PyStr.starts_clean (s +:+ after).
Proof. destruct s as [|c s]; [congruence | auto]. Qed.

(** And it is the only one. *)
Lemma stripped_unique (content core : string) :
  Stated.stripped content core -> core = PyStr.strip content.
Proof.
  intros (before & after & -> & Hb & Ha & Htrim).
  apply all_space_blank in Hb, Ha. apply clean_trimmed in Htrim as [Hs He].
  unfold PyStr.strip. rewrite lstrip_blank_app by exact Hb.
  destruct core as [|c core].
  - change (EmptyString +:+ after) with after.
    now rewrite (lstrip_all_space _ Ha).
  - rewrite lstrip_clean by (apply starts_clean_app; [exact Hs | discriminate]).
    unfold PyStr.rstrip. rewrite reverse_app.
    rewrite lstrip_blank_app by (now rewrite all_space_reverse).
    rewrite lstrip_clean by exact He. now rewrite reverse_involutive.
Qed.

Lemma join_cons (p : string) (rest : list string) :
  PyStr.join " " (p :: rest)
    = fold_left (fun acc x => acc +:+ " " +:+ x) rest p.
Proof.
  assert (Hfold : forall rest acc q,
    fold_left (fun acc x => acc +:+ " " +:+ x) rest (acc +:+ " " +:+ q)
      = acc +:+ " " +:+ fold_left (fun acc x => acc +:+ " " +:+ x) rest q).
  { clear. intros rest. induction rest as [|x rest IH]; intros acc q.
    - reflexivity.
    - cbn [fold_left]. rewrite <- IH. f_equal.
      now rewrite !append_assoc. }
  revert p. induction rest as [|q rest IH]; intros p; [reflexivity|].
  cbn [fold_left]. rewrite Hfold, <- IH. reflexivity.
Qed.

(** [join] with a space gives what the statements call the spaced parts. *)
Lemma join_spaced (parts : list string) :
  PyStr.join " " parts = Stated.spaced parts.
Proof. destruct parts as [|p rest]; [reflexivity | apply join_cons]. Qed.

Lemma entry_is_entry (fields : string * string) :
  Stated.entry_of fields (Retrieval.entry fields).
Proof.
  exists (PyStr.strip (snd fields)). split; [apply strip_stripped|].
  reflexivity.
Qed.

Lemma entry_of_unique (fields : string * string) (e : string) :
  Stated.entry_of fields e -> e = Retrieval.entry fields.
Proof.
  intros (core & Hcore & ->). now rewrite (stripped_unique _ _ Hcore).
Qed.

(** The entries of a list of documents exist and are determined. *)
Lemma entries_are_entries (fields : list (string * string)) :
  Forall2 Stated.entry_of fields (map Retrieval.entry fields) /\
  forall entries,
    Forall2 Stated.entry_of fields entries ->
    entries = map Retrieval.entry fields.
Proof.
  split.
  - induction fields; constructor; auto using entry_is_entry.
  - intros entries H. induction H as [|f e fields entries He _ IH];
      [reflexivity|].
    cbn. now rewrite (entry_of_unique _ _ He), IH.
Qed.

Lemma slice_to_kept {A} (l : list A) (k : Z) :
  Py.slice_to l k = firstn (Stated.kept k (length l)) l.
Proof.
  unfold Py.slice_to, Stated.kept.
  destruct (k <? 0) eqn:Hneg, (0 <=? k) eqn:Hpos; try lia.
  - f_equal. lia.
  - destruct (Nat.le_ge_cases (Z.to_nat k) (length l)) as [Hle | Hge].
    + now rewrite Nat.min_l.
    + rewrite Nat.min_r by exact Hge.
      now rewrite !firstn_all2 by lia.
Qed.

(** ** The strategies *)

(** *** Runs that return *)

Lemma bind_returns {S A B} (m : Eff.M S A) (k : A -> Eff.M S B) s s' b :
  Eff.bind m k s = (s', Ok b) ->
  exists s1 a, m s = (s1, Ok a) /\ k a s1 = (s', Ok b).
Proof.
  unfold Eff.bind. destruct (m s) as [s1 [a|e]]; [eauto | discriminate].
Qed.

Lemma lift_returns {S A} (r : res A) (s s' : S) a :
  Eff.lift r s = (s', Ok a) -> r = Ok a /\ s' = s.
Proof. unfold Eff.lift. intros [= -> ->]. auto. Qed.

Section StrategyFacts.
Import Strategy.

Context {LLMConfig History : Type}.
Implicit Types (autogen : framework LLMConfig) (self : base_strategy History)
  (h : heap LLMConfig).

Lemma new_returns autogen (a : agent LLMConfig) h h' x :
  new autogen a h = (h', Ok x) -> h' = h ++ [a] /\ x = length h.
Proof.
  unfold new. destruct (init_agent autogen a); intros [= <- <-]. auto.
Qed.

Lemma register_returns autogen tool descr caller executor h h' u :
  register_function autogen tool descr caller executor h = (h', Ok u) ->
  h' = alter (add_function tool) executor
         (alter (add_llm_tool tool descr) caller h).
Proof.
  unfold register_function.
  destruct (register_for_llm autogen h caller tool descr); [|discriminate].
  destruct (register_for_execution autogen _ executor tool); [|discriminate].
  now intros [= <-].
Qed.

(** Registering a tool with agents at the end of the heap leaves the
    objects before them alone. *)
Lemma registered_at_end tool descr (caller executor : nat) h
    (l : heap LLMConfig) :
  (length h <= caller)%nat -> (length h <= executor)%nat ->
  alter (add_function tool) executor
    (alter (add_llm_tool tool descr) caller (h ++ l)) =
  h ++ alter (add_function tool) (executor - length h)%nat
         (alter (add_llm_tool tool descr) (caller - length h)%nat l).
Proof.
  intros Hc He.
  rewrite (alter_app_r_alt _ h l caller) by exact Hc.
  now rewrite alter_app_r_alt by exact He.
Qed.

Ltac run_returns H :=
  repeat
    (let h1 := fresh "h" in
     let a := fresh "a" in
     let H1 := fresh "Hstep" in
     apply bind_returns in H as (h1 & a & H1 & H);
     first
       [ apply lift_returns in H1 as [H1 ->]
       | apply new_returns in H1 as [-> ->]
       | apply register_returns in H1 as -> ]).

(** A run of the advisor's [create_agents] that returns has loaded its
    prompts, has put its three agents at the end of the heap and left the
    others as they were, and returns the configuration over the three. *)
Lemma advisor_returned autogen self llm (history : History) h h' r :
  NL2SQLAdvisorStrategy.create_agents autogen self llm history h
    = (h', Ok r) ->
  exists p1 s p2 p3,
    _read_prompt self "user_proxy" None = Ok p1 /\
    _summarize_conversation self history = Ok s /\
    _read_prompt self "nl2sql_assistant"
      (Some [("conversation_summary", s)]) = Ok p2 /\
    _read_prompt self "advisor" None = Ok p3 /\
    h' = h ++ advisor_agents llm p1 p2 p3 /\
    r = Configuration
          (advisor_configuration
             (length h) (length h + 1)%nat (length h + 2)%nat).
Proof.
  intros H. unfold NL2SQLAdvisorStrategy.create_agents in H.
  run_returns H. unfold Eff.ret in H. injection H as <- <-.
  eexists _, _, _, _. repeat (split; [eassumption|]).
  rewrite !length_app. cbn [length]. rewrite <- !Nat.add_assoc.
  cbn [Nat.add]. rewrite <- !app_assoc. cbn [app].
  split; [|reflexivity].
  rewrite !registered_at_end by lia.
  rewrite ?Nat.sub_diag, ?(Nat.add_comm (length h)), ?Nat.add_sub.
  reflexivity.
Qed.

Lemma fewshot_returned autogen self llm (history : History) h h' r :
  NL2SQLSingleAgentFewshotCreationStrategy.create_agents
    autogen self llm history h = (h', Ok r) ->
  exists p1 s p2,
    _read_prompt self "user_proxy" None = Ok p1 /\
    _summarize_conversation self history = Ok s /\
    _read_prompt self "nl2sql_assistant"
      (Some [("conversation_summary", s)]) = Ok p2 /\
    h' = h ++ fewshot_agents llm p1 p2 /\
    r = AgentList [length h; length h + 1]%nat.
Proof.
  intros H.
  unfold NL2SQLSingleAgentFewshotCreationStrategy.create_agents in H.
  run_returns H. unfold Eff.ret in H. injection H as <- <-.
  eexists _, _, _. repeat (split; [eassumption|]).
  rewrite !length_app. cbn [length]. rewrite <- !app_assoc. cbn [app].
  split; [|reflexivity].
  rewrite !registered_at_end by lia.
  rewrite ?Nat.sub_diag, ?(Nat.add_comm (length h)), ?Nat.add_sub.
  reflexivity.
Qed.

(** When the prompts load and the framework raises at none of its calls,
    the run returns. *)
Lemma advisor_returns autogen self llm (history : History) h :
  advisor_prompts_load self history ->
  accepts autogen ->
  exists h' r,
    NL2SQLAdvisorStrategy.create_agents autogen self llm history h
      = (h', Ok r).
Proof.
  intros (p1 & s & p2 & p3 & H1 & H2 & H3 & H4) (Hinit & Hllm & Hexec).
  unfold NL2SQLAdvisorStrategy.create_agents, Eff.bind, Eff.lift, Eff.ret,
    new, register_function.
  rewrite H1, Hinit, H2, H3, Hinit, H4, Hinit.
  repeat (rewrite Hllm, Hexec). eauto.
Qed.

Lemma fewshot_returns autogen self llm (history : History) h :
  fewshot_prompts_load self history ->
  accepts autogen ->
  exists h' r,
    NL2SQLSingleAgentFewshotCreationStrategy.create_agents
      autogen self llm history h = (h', Ok r).
Proof.
  intros (p1 & s & p2 & H1 & H2 & H3) (Hinit & Hllm & Hexec).
  unfold NL2SQLSingleAgentFewshotCreationStrategy.create_agents,
    Eff.bind, Eff.lift, Eff.ret, new, register_function.
  rewrite H1, Hinit, H2, H3, Hinit.
  repeat (rewrite Hllm, Hexec). eauto.
Qed.

Lemma lookup_past {A} (l new_items : list A) (k : nat) :
  (l ++ new_items) !! (length l + k)%nat = new_items !! k.
Proof.
  induction l as [|a l IH]; cbn; auto.
Qed.

Lemma lookup_map {A B} (g : A -> B) (l : list A) (i : nat) :
  map g l !! i = option_map g (l !! i).
Proof.
  revert i. induction l as [|a l IH]; intros [|i]; cbn; auto.
Qed.

Lemma no_str_among_dicts (needle : string) (parts : list json) :
  forallb is_dict parts = true -> existsb (Py.is_str needle) parts = false.
Proof.
  induction parts as [|[] parts IH]; cbn; try discriminate; auto.
Qed.

(** The lambda on a text message: true exactly when the content is a
    string in which the token occurs. *)
Lemma termination_lambda_text (msg : dict) :
  text_content msg ->
  exists b,
    termination_lambda msg = Ok b /\
    (b = true <->
     exists s, Py.dict_lookup msg "content" = Some (JStr s) /\
               PyStr.is_substring "TERMINATE" s).
Proof.
  unfold text_content, termination_lambda, Py.dict_get.
  destruct (Py.dict_lookup msg "content") as [[| | | |s|parts|]|];
    intros Htext; try contradiction.
  - exists false. split; [reflexivity|].
    split; [discriminate | intros (s & Hs & _); discriminate].
  - exists (PyStr.contains "TERMINATE" s). split; [reflexivity|].
    rewrite contains_iff. split.
    + intros Hsub. exists s. auto.
    + intros (s' & Hs & Hsub). now injection Hs as ->.
  - exists false. split.
    + cbn [Py.contains]. f_equal. now apply no_str_among_dicts.
    + split; [discriminate | intros (s & Hs & _); discriminate].
  - exists false. split; [reflexivity|].
    split; [discriminate | intros (s & Hs & _); discriminate].
Qed.

(** The predicate an agent of either strategy carries, when it carries
    one, is the lambda. *)
Lemma attached_predicate autogen self llm (history : History) h h' r x a f :
  NL2SQLAdvisorStrategy.create_agents autogen self llm history h
    = (h', Ok r) \/
  NL2SQLSingleAgentFewshotCreationStrategy.create_agents
    autogen self llm history h = (h', Ok r) ->
  In x (created_agents r) ->
  h' !! x = Some a ->
  is_termination_msg a = Some f ->
  f = termination_lambda.
Proof.
  intros Hrun Hin Hx Hf.
  destruct Hrun as [Hrun | Hrun].
  - apply advisor_returned in Hrun
      as (p1 & s & p2 & p3 & _ & _ & _ & _ & -> & ->).
    cbn in Hin. destruct Hin as [<- | [<- | [<- | []]]].
    + rewrite <- (Nat.add_0_r (length h)), lookup_past in Hx.
      cbn in Hx. injection Hx as <-. cbn in Hf. congruence.
    + rewrite lookup_past in Hx.
      cbn in Hx. injection Hx as <-. cbn in Hf. congruence.
    + rewrite lookup_past in Hx.
      cbn in Hx. injection Hx as <-. cbn in Hf. congruence.
  - apply fewshot_returned in Hrun as (p1 & s & p2 & _ & _ & _ & -> & ->).
    cbn in Hin. destruct Hin as [<- | [<- | []]].
    + rewrite <- (Nat.add_0_r (length h)), lookup_past in Hx.
      cbn in Hx. injection Hx as <-. cbn in Hf. congruence.
    + rewrite lookup_past in Hx.
      cbn in Hx. injection Hx as <-. cbn in Hf. congruence.
Qed.

Lemma names_added h (added : heap LLMConfig) (k : nat) :
  names (h ++ added) !! (length h + k)%nat = name <$> added !! k.
Proof.
  unfold names. rewrite map_app.
  replace (length h) with (length (map name h)) by apply length_map.
  rewrite lookup_past. rewrite lookup_map. now destruct (added !! k).
Qed.

(** C1.  In the advisor scenario [create_agents] returns exactly the fixed
    table: the user proxy hands off to the assistant only, the assistant
    to the advisor and the user proxy, the advisor to the user proxy and
    the assistant, and the transitions are marked ["allowed"]. *)
Theorem advisor_transition_table
    autogen self llm (history : History) h h' r :
  NL2SQLAdvisorStrategy.create_agents autogen self llm history h
    = (h', Ok r) ->
  exists c user_proxy assistant advisor,
    r = Configuration c /\
    agents c = [user_proxy; assistant; advisor] /\
    names h' !! user_proxy = Some "user" /\
    names h' !! assistant = Some "assistant" /\
    names h' !! advisor = Some "advisor" /\
    transitions c =
      [(advisor, [user_proxy; assistant]);
       (user_proxy, [assistant]);
       (assistant, [advisor; user_proxy])] /\
    successors (transitions c) user_proxy = Some [assistant] /\
    successors (transitions c) assistant = Some [advisor; user_proxy] /\
    successors (transitions c) advisor = Some [user_proxy; assistant] /\
    transitions_type c = "allowed".
Proof.
  intros Hrun.
  apply advisor_returned in Hrun
    as (p1 & s & p2 & p3 & _ & _ & _ & _ & -> & ->).
  eexists _, (length h), (length h + 1)%nat, (length h + 2)%nat.
  split; [reflexivity|].
  cbn [advisor_configuration agents transitions transitions_type].
  split; [reflexivity|].
  split; [rewrite <- (Nat.add_0_r (length h)); now rewrite names_added|].
  split; [now rewrite names_added|].
  split; [now rewrite names_added|].
  split; [reflexivity|].
  set (n := length h). cbn [successors].
  replace (n + 2 =? n)%nat with false by (symmetry; apply Nat.eqb_neq; lia).
  replace (n + 2 =? n + 1)%nat with false
    by (symmetry; apply Nat.eqb_neq; lia).
  replace (n =? n + 1)%nat with false by (symmetry; apply Nat.eqb_neq; lia).
  rewrite !Nat.eqb_refl. auto.
Qed.

(** C10.  In the advisor's table no agent is among its own successors,
    and every successor is one of the three agents of the same result,
    which are three distinct objects created by the call. *)
Theorem advisor_table_closed autogen self llm (history : History) h h' r :
  NL2SQLAdvisorStrategy.create_agents autogen self llm history h
    = (h', Ok r) ->
  exists c,
    r = Configuration c /\
    (forall agent succs,
       In (agent, succs) (transitions c) ->
       ~ In agent succs /\ forall next, In next succs -> In next (agents c)) /\
    length (agents c) = 3%nat /\
    NoDup (agents c) /\
    (forall agent, In agent (agents c) ->
       (length h <= agent < length h')%nat).
Proof.
  intros Hrun.
  apply advisor_returned in Hrun
    as (p1 & s & p2 & p3 & _ & _ & _ & _ & -> & ->).
  eexists. split; [reflexivity|].
  cbn [advisor_configuration transitions agents].
  split; [|split; [reflexivity|split]].
  - intros agent succs Hin. cbn in Hin.
    destruct Hin as [Heq | [Heq | [Heq | []]]]; injection Heq as <- <-;
      cbn; split; try lia; intuition lia.
  - apply NoDup_cons. split.
    { rewrite !not_elem_of_cons. repeat split; try lia.
      apply not_elem_of_nil. }
    apply NoDup_cons. split; [|apply NoDup_singleton].
    rewrite not_elem_of_cons. split; [lia | apply not_elem_of_nil].
  - rewrite length_app. cbn. intros agent Hin. lia.
Qed.


(** C6, as the code has it.  A run of the advisor variant that returns
    gives its three agents together with the fixed transition table; a run
    of the single-agent few-shot variant that returns gives the bare list
    of its two agents, the user proxy and the assistant, and no transition
    table. *)
Theorem create_agents_results autogen self llm (history : History) h :
  (forall h' r,
     NL2SQLAdvisorStrategy.create_agents autogen self llm history h
       = (h', Ok r) ->
     exists c,
       r = Configuration c /\
       agents c = [length h; length h + 1; length h + 2]%nat /\
       names h' = names h ++ ["user"; "assistant"; "advisor"] /\
       created_transitions r =
         Some [((length h + 2)%nat, [length h; (length h + 1)%nat]);
               (length h, [(length h + 1)%nat]);
               ((length h + 1)%nat, [(length h + 2)%nat; length h])]) /\
  (forall h' r,
     NL2SQLSingleAgentFewshotCreationStrategy.create_agents
       autogen self llm history h = (h', Ok r) ->
     r = AgentList [length h; length h + 1]%nat /\
     names h' = names h ++ ["user"; "assistant"] /\
     created_transitions r = None).
Proof.
  split; intros h' r Hrun.
  - apply advisor_returned in Hrun
      as (p1 & s & p2 & p3 & _ & _ & _ & _ & -> & ->).
    eexists. split; [reflexivity|]. unfold names. rewrite map_app. auto.
  - apply fewshot_returned in Hrun as (p1 & s & p2 & _ & _ & _ & -> & ->).
    unfold names. rewrite map_app. auto.
Qed.

End StrategyFacts.

(** C6 as stated fails: run on an empty heap with prompts that load and a
    framework that accepts every call, the few-shot variant returns the
    list of its two agents, which is not a configuration and holds no
    transition table. *)
Lemma fewshot_returns_bare_list :
  (exists h' : Strategy.heap unit,
     NL2SQLSingleAgentFewshotCreationStrategy.create_agents
       Strategy.lenient (Strategy.echo_base "summary") tt tt [] =
       (h', Ok (Strategy.AgentList [0; 1]%nat))) /\
  ~ (exists (h' : Strategy.heap unit) c,
       NL2SQLSingleAgentFewshotCreationStrategy.create_agents
         Strategy.lenient (Strategy.echo_base "summary") tt tt [] =
         (h', Ok (Strategy.Configuration c))).
Proof.
  split.
  - eexists. cbv. reflexivity.
  - intros (h' & c & H). vm_compute in H. discriminate.
Qed.

Lemma create_agents_results_witness :
  (exists (h' : Strategy.heap unit) r c,
     NL2SQLAdvisorStrategy.create_agents
       Strategy.lenient (Strategy.echo_base "summary") tt tt [] = (h', Ok r) /\
     r = Strategy.Configuration c /\
     Strategy.agents c = [0; 1; 2]%nat /\
     Strategy.names h' = ["user"; "assistant"; "advisor"] /\
     Strategy.created_transitions r =
       Some [(2, [0; 1]); (0, [1]); (1, [2; 0])]%nat) /\
  (exists (h' : Strategy.heap unit) r,
     NL2SQLSingleAgentFewshotCreationStrategy.create_agents
       Strategy.lenient (Strategy.echo_base "summary") tt tt [] = (h', Ok r) /\
     r = Strategy.AgentList [0; 1]%nat /\
     Strategy.names h' = ["user"; "assistant"] /\
     Strategy.created_transitions r = None).
Proof.
  destruct (create_agents_results
              Strategy.lenient (Strategy.echo_base "summary") tt tt [])
    as [Hadvisor Hfewshot].
  split.
  - eexists _, _.
    refine ((fun Hrun => let '(ex_intro _ c Hc) := Hadvisor _ _ Hrun in
                         ex_intro _ c (conj Hrun Hc)) _).
    cbv. reflexivity.
  - eexists _, _.
    refine ((fun Hrun => conj Hrun (Hfewshot _ _ Hrun)) _).
    cbv. reflexivity.
Defined.

Lemma advisor_transition_table_witness :
  exists (h' : Strategy.heap unit) r,
    NL2SQLAdvisorStrategy.create_agents
      Strategy.lenient (Strategy.echo_base "summary") tt tt [] = (h', Ok r) /\
    exists c user_proxy assistant advisor,
      r = Strategy.Configuration c /\
      Strategy.agents c = [user_proxy; assistant; advisor] /\
      Strategy.names h' !! user_proxy = Some "user" /\
      Strategy.names h' !! assistant = Some "assistant" /\
      Strategy.names h' !! advisor = Some "advisor" /\
      Strategy.transitions c =
        [(advisor, [user_proxy; assistant]);
         (user_proxy, [assistant]);
         (assistant, [advisor; user_proxy])] /\
      Strategy.successors (Strategy.transitions c) user_proxy
        = Some [assistant] /\
      Strategy.successors (Strategy.transitions c) assistant
        = Some [advisor; user_proxy] /\
      Strategy.successors (Strategy.transitions c) advisor
        = Some [user_proxy; assistant] /\
      Strategy.transitions_type c = "allowed".
Proof.
  eexists _, _.
  refine ((fun Hrun =>
             conj Hrun (advisor_transition_table _ _ _ _ _ _ _ Hrun)) _).
  cbv. reflexivity.
Defined.

Lemma advisor_table_closed_witness :
  exists (h' : Strategy.heap unit) r,
    NL2SQLAdvisorStrategy.create_agents
      Strategy.lenient (Strategy.echo_base "summary") tt tt [] = (h', Ok r) /\
    exists c,
      r = Strategy.Configuration c /\
      (forall agent succs,
         In (agent, succs) (Strategy.transitions c) ->
         ~ In agent succs /\
         forall next, In next succs -> In next (Strategy.agents c)) /\
      length (Strategy.agents c) = 3%nat /\
      NoDup (Strategy.agents c) /\
      (forall agent, In agent (Strategy.agents c) ->
         (0 <= agent < length h')%nat).
Proof.
  eexists _, _.
  refine ((fun Hrun =>
             conj Hrun (advisor_table_closed
                          _ _ _ _ ([] : Strategy.heap unit) _ _ Hrun)) _).
  cbv. reflexivity.
Defined.


(** That the run returns is a hypothesis with content: with a framework
    that wants a usable LLM configuration before it tells an agent of a
    tool, and a null configuration passed in, the first registration
    raises and [create_agents] with it, although every prompt loads. *)
Lemma create_agents_raises_without_llm_config :
  snd (NL2SQLAdvisorStrategy.create_agents
         (Strategy.demanding Py.truthy) (Strategy.echo_base "summary")
         JNull tt ([] : Strategy.heap json))
    = Raise AssertionError /\
  snd (NL2SQLSingleAgentFewshotCreationStrategy.create_agents
         (Strategy.demanding Py.truthy) (Strategy.echo_base "summary")
         JNull tt ([] : Strategy.heap json))
    = Raise AssertionError.
Proof. split; reflexivity. Qed.

(** C4.  The round cap is 30 for the advisor strategy and 20 for the
    single-agent few-shot strategy, whatever the strategy object. *)
Theorem round_caps {History : Type} (self : Strategy.base_strategy History) :
  NL2SQLAdvisorStrategy.max_rounds self = 30 /\
  NL2SQLSingleAgentFewshotCreationStrategy.max_rounds self = 20.
Proof. split; reflexivity. Qed.

(** ** The retrieval tools *)

Section RetrievalFacts.
Import Retrieval.

Lemma state_eta (s : state) :
  {| trace := trace s; search_results := search_results s ++ [] |} = s.
Proof. destruct s. simpl. now rewrite app_nil_r. Qed.

Lemma append_doc_run doc fields (s : state) :
  doc_fields doc fields ->
  append_doc doc s =
    ({| trace := trace s;
        search_results := search_results s ++ [entry fields] |}, Ok tt).
Proof.
  intros [Hpath Hcontent].
  unfold append_doc, Eff.bind, Eff.lift. rewrite Hpath. cbn.
  rewrite Hcontent. cbn. unfold append, entry.
  now rewrite append_assoc.
Qed.

Lemma append_docs_run docs fields (s : state) :
  Forall2 doc_fields docs fields ->
  for_each docs append_doc s =
    ({| trace := trace s;
        search_results := search_results s ++ map entry fields |}, Ok tt).
Proof.
  intros Hdocs. revert s.
  induction Hdocs as [|doc f docs fields Hdoc _ IH]; intros s.
  - cbn. unfold Eff.ret. now rewrite state_eta.
  - cbn [for_each]. unfold Eff.bind.
    rewrite (append_doc_run _ _ _ Hdoc), IH. cbn.
    now rewrite <- app_assoc.
Qed.

Lemma handle_response_run r j docs fields (s : state) :
  status_code r < 400 ->
  json_body r = Ok j ->
  Py.getitem j "value" = Ok (JArr docs) ->
  Forall2 doc_fields docs fields ->
  handle_response r s =
    ({| trace := trace s;
        search_results := search_results s ++ map entry fields |}, Ok tt).
Proof.
  intros Hstatus Hjson Hvalue Hdocs.
  unfold handle_response, Eff.bind, Eff.lift. rewrite Hjson.
  destruct (status_code r >=? 400) eqn:Hge; [lia|].
  rewrite Hvalue. destruct Hdocs as [|doc f docs fields Hdoc Hdocs].
  - cbn. unfold Eff.ret. now rewrite state_eta.
  - cbn [Py.truthy length Nat.eqb negb Py.len Py.iter].
    apply append_docs_run. now constructor.
Qed.

Lemma append_cogmo_doc_run doc fields (s : state) :
  cogmo_doc_fields doc fields ->
  append_cogmo_doc doc s =
    ({| trace := trace s;
        search_results := search_results s ++ [entry fields] |}, Ok tt).
Proof.
  intros [Htitle Hhigh].
  unfold append_cogmo_doc, Eff.bind, Eff.lift. rewrite Htitle. cbn.
  rewrite Hhigh. cbn. unfold append, entry.
  now rewrite append_assoc.
Qed.

Lemma append_cogmo_docs_run docs fields (s : state) :
  Forall2 cogmo_doc_fields docs fields ->
  for_each docs append_cogmo_doc s =
    ({| trace := trace s;
        search_results := search_results s ++ map entry fields |}, Ok tt).
Proof.
  intros Hdocs. revert s.
  induction Hdocs as [|doc f docs fields Hdoc _ IH]; intros s.
  - cbn. unfold Eff.ret. now rewrite state_eta.
  - cbn [for_each]. unfold Eff.bind.
    rewrite (append_cogmo_doc_run _ _ _ Hdoc), IH. cbn.
    now rewrite <- app_assoc.
Qed.

(** C3.  When the search service answers with a status below 400 and a
    non-empty list of documents, the function returns the entries of the
    documents, in the order received, with single spaces between them; the
    entry of a document is its path, a colon and a space, its stripped
    content and a newline. *)
Theorem vector_retrieve_concatenates env input w r j docs fields :
  search_responds env input w r ->
  status_code r < 400 ->
  json_body r = Ok j ->
  Py.getitem j "value" = Ok (JArr docs) ->
  docs <> [] ->
  Forall2 doc_fields docs fields ->
  exists entries,
    Forall2 Stated.entry_of fields entries /\
    (forall others, Forall2 Stated.entry_of fields others ->
                    others = entries) /\
    snd (vector_index_retrieve env input w) = Ok (Stated.spaced entries).
Proof.
  intros (Hclient & Hcred & emb & key & body & Hemb & Hkey & Hbody & Hpost)
    Hstatus Hjson Hvalue _ Hdocs.
  destruct (entries_are_entries fields) as [Hentries Hunique].
  exists (map entry fields). split; [exact Hentries|].
  split; [exact Hunique|].
  unfold vector_index_retrieve. rewrite Hclient.
  unfold try_block, Eff.bind, Eff.lift, call.
  rewrite Hcred, Hemb, Hkey, Hbody, Hpost.
  rewrite (handle_response_run _ _ _ _ _ Hstatus Hjson Hvalue Hdocs).
  cbn. now rewrite join_spaced.
Qed.

(** A failure before the first document is read leaves nothing in
    [search_results]. *)
Lemma failure_before_documents env input w :
  client_init w = Ok tt ->
  search_fails w ->
  snd (vector_index_retrieve env input w) = Ok EmptyString.
Proof.
  intros Hclient Hfail.
  unfold vector_index_retrieve. rewrite Hclient.
  unfold try_block, Eff.bind, Eff.lift, call.
  destruct (credential_init w) as [?|?] eqn:Hcred; [|reflexivity].
  destruct (embeddings w) as [emb|?] eqn:Hemb; [|reflexivity].
  destruct (token w) as [key|?] eqn:Hkey; [|reflexivity].
  destruct (prepare_body env input emb) as [body|?]; [|reflexivity].
  destruct (post_response w) as [r|?] eqn:Hpost; [|reflexivity].
  unfold handle_response, Eff.bind, Eff.lift.
  destruct (json_body r) as [j|?] eqn:Hjson; [|reflexivity].
  destruct (status_code r >=? 400) eqn:Hstatus; [reflexivity|].
  destruct (Py.getitem j "value") as [value|?] eqn:Hvalue; [|reflexivity].
  exfalso.
  destruct Hfail as [[e H] | [[e H] | [[e H] | [[e H] | (r' & Hr & H)]]]];
    try congruence.
  rewrite Hpost in Hr. injection Hr as <-.
  destruct H as [[e H] | [(j' & e & Hj & H) | H]]; [congruence | | lia].
  rewrite Hjson in Hj. injection Hj as <-. congruence.
Qed.

(** *** The calls made *)

Lemma for_each_trace {A} (body : A -> M unit) :
  (forall x s, trace (fst (body x s)) = trace s) ->
  forall xs s, trace (fst (for_each xs body s)) = trace s.
Proof.
  intros Hbody xs. induction xs as [|x xs IH]; intros s; [reflexivity|].
  cbn [for_each]. unfold Eff.bind.
  specialize (Hbody x s). destruct (body x s) as [s' [[]|e]]; cbn in *.
  - now rewrite IH.
  - exact Hbody.
Qed.

Lemma append_doc_trace doc s : trace (fst (append_doc doc s)) = trace s.
Proof.
  unfold append_doc, Eff.bind, Eff.lift.
  destruct (Py.getitem doc "filepath") as [fp|]; [|reflexivity].
  destruct (Py.add_str fp ": "); [|reflexivity].
  destruct (Py.getitem doc "content") as [c|]; [|reflexivity].
  destruct (Py.strip c); reflexivity.
Qed.

Lemma append_cogmo_doc_trace doc s :
  trace (fst (append_cogmo_doc doc s)) = trace s.
Proof.
  unfold append_cogmo_doc, Eff.bind, Eff.lift.
  destruct (Py.getitem doc "title") as [t|]; [|reflexivity].
  destruct (Py.add_str t ": "); [|reflexivity].
  destruct (Py.getitem doc "highlighting") as [c|]; [|reflexivity].
  destruct (Py.strip c); reflexivity.
Qed.

Lemma handle_response_trace r s :
  trace (fst (handle_response r s)) = trace s.
Proof.
  unfold handle_response, Eff.bind, Eff.lift.
  destruct (json_body r) as [j|]; [|reflexivity].
  destruct (status_code r >=? 400); [reflexivity|].
  destruct (Py.getitem j "value") as [v|]; [|reflexivity].
  destruct (Py.truthy v); [|reflexivity].
  destruct (Py.len v); [|reflexivity].
  destruct (Py.iter v) as [docs|]; [|reflexivity].
  apply for_each_trace, append_doc_trace.
Qed.

Lemma handle_cogmo_response_trace env r s :
  trace (fst (handle_cogmo_response env r s)) = trace s.
Proof.
  unfold handle_cogmo_response, Eff.bind, Eff.lift.
  destruct (json_body r) as [j|]; [|reflexivity].
  destruct (status_code r >=? 400); [reflexivity|].
  destruct (Py.getitem j "response") as [resp|]; [|reflexivity].
  destruct (Py.getitem resp "docs") as [v|]; [|reflexivity].
  destruct (Py.truthy v); [|reflexivity].
  destruct (Py.len v); [|reflexivity].
  destruct (Py.int (search_top_k env)) as [k|]; [|reflexivity].
  destruct (Py.iter_slice_to v k) as [docs|]; [|reflexivity].
  apply for_each_trace, append_cogmo_doc_trace.
Qed.

(** The calls of one invocation, in full. *)
Lemma vector_retrieve_calls env input w :
  let calls := fst (vector_index_retrieve env input w) in
  calls = [] \/
  calls = [EvEmbeddings input] \/
  calls = [EvEmbeddings input; EvGetToken token_scope] \/
  exists embeddings_query azureSearchKey body,
    prepare_body env input embeddings_query = Ok body /\
    calls = [EvEmbeddings input; EvGetToken token_scope;
             EvPost (search_endpoint env) (headers azureSearchKey) body].
Proof.
  unfold vector_index_retrieve.
  destruct (client_init w); [|now left].
  unfold try_block, Eff.bind, Eff.lift, call.
  destruct (credential_init w); [|now left].
  destruct (embeddings w) as [emb|]; [|right; now left].
  destruct (token w) as [key|]; [|right; right; now left].
  destruct (prepare_body env input emb) as [body|] eqn:Hbody;
    [|right; right; now left].
  right; right; right. exists emb, key, body. split; [exact Hbody|].
  destruct (post_response w) as [r|]; [|reflexivity].
  cbn beta iota.
  match goal with
  | |- context [handle_response r ?s] =>
      pose proof (handle_response_trace r s) as Htrace;
      destruct (handle_response r s) as [s' ?]
  end.
  exact Htrace.
Qed.

Lemma cogmo_calls env input w :
  fst (cogmo_search env input w)
    = [EvGet (cogmo_endpoint env) [("query", JStr input)]].
Proof.
  unfold cogmo_search, cogmo_try_block, Eff.bind, call.
  destruct (get_response w) as [r|]; [|reflexivity].
  cbn beta iota.
  match goal with
  | |- context [handle_cogmo_response env r ?s] =>
      pose proof (handle_cogmo_response_trace env r s) as Htrace;
      destruct (handle_cogmo_response env r s) as [s' ?]
  end.
  exact Htrace.
Qed.

(** C5, as the code has it.  One invocation of [vector_index_retrieve]
    makes at most three external calls, each at most once and in this
    order: the embedding call, the token request and the search request.
    One invocation of [cogmo_search] makes exactly one, its GET. *)
Theorem external_calls_in_order env input w :
  let calls := fst (vector_index_retrieve env input w) in
  (calls = [] \/
   calls = [EvEmbeddings input] \/
   calls = [EvEmbeddings input; EvGetToken token_scope] \/
   exists azureSearchKey body,
     calls = [EvEmbeddings input; EvGetToken token_scope;
              EvPost (search_endpoint env) (headers azureSearchKey) body])
  /\ fst (cogmo_search env input w)
       = [EvGet (cogmo_endpoint env) [("query", JStr input)]].
Proof.
  split; [|apply cogmo_calls].
  destruct (vector_retrieve_calls env input w)
    as [H | [H | [H | (emb & key & body & _ & H)]]]; eauto 6.
Qed.

(** C5 as stated fails: an invocation in which everything succeeds makes
    three external calls, not at most one. *)
Lemma vector_retrieve_makes_three_calls :
  ~ (length (fst (vector_index_retrieve ∅ "q" (sample_world sample_docs)))
     <= 1)%nat.
Proof. vm_compute. lia. Qed.

(** *** The limit of [cogmo_search] *)

Lemma slice_to_firstn {A} (l : list A) (k : Z) :
  0 <= k -> Py.slice_to l k = firstn (Z.to_nat k) l.
Proof.
  intros Hk. unfold Py.slice_to.
  destruct (k <? 0) eqn:Hneg; [lia | reflexivity].
Qed.

Lemma slice_to_negative {A} (l : list A) (k : Z) :
  k < 0 -> Py.slice_to l k = firstn (length l - Z.to_nat (- k)) l.
Proof.
  intros Hk. unfold Py.slice_to.
  destruct (k <? 0) eqn:Hneg; [|lia]. f_equal. lia.
Qed.

(** C8, as the code has it.  On a successful answer [cogmo_search] puts
    into its result the entries of the documents its limit keeps, in the
    order received: the first [int(AZURE_SEARCH_TOP_K)] of them, however
    many the service sent, when that number is not negative, and all but
    the last [n] of them when it is [-n]; the limit is 3 when the variable
    is not set. *)
Theorem cogmo_search_top_k env input w r j resp docs k fields :
  get_response w = Ok r ->
  status_code r < 400 ->
  json_body r = Ok j ->
  Py.getitem j "response" = Ok resp ->
  Py.getitem resp "docs" = Ok (JArr docs) ->
  Py.int (search_top_k env) = Ok k ->
  Forall2 cogmo_doc_fields
    (firstn (Stated.kept k (length docs)) docs) fields ->
  exists entries,
    Forall2 Stated.entry_of fields entries /\
    (forall others, Forall2 Stated.entry_of fields others ->
                    others = entries) /\
    snd (cogmo_search env input w) = Ok (Stated.spaced entries) /\
    length entries = Stated.kept k (length docs) /\
    (0 <= k -> Z.of_nat (length entries) <= k) /\
    (env !! "AZURE_SEARCH_TOP_K" = None -> k = 3).
Proof.
  intros Hget Hstatus Hjson Hresp Hdocs Hint Hfields.
  destruct (entries_are_entries fields) as [Hentries Hunique].
  assert (Hlen : length (map entry fields) = Stated.kept k (length docs)).
  { rewrite length_map, <- (Forall2_length _ _ _ Hfields), length_firstn.
    unfold Stated.kept. destruct (0 <=? k); lia. }
  exists (map entry fields).
  split; [exact Hentries|]. split; [exact Hunique|].
  split; [|split; [exact Hlen|split]].
  - unfold cogmo_search, cogmo_try_block, Eff.bind, call.
    rewrite Hget. unfold handle_cogmo_response, Eff.bind, Eff.lift.
    rewrite Hjson.
    destruct (status_code r >=? 400) eqn:Hge; [lia|].
    rewrite Hresp, Hdocs.
    destruct docs as [|doc docs].
    + rewrite firstn_nil in Hfields. inversion Hfields. reflexivity.
    + cbn [Py.truthy length Nat.eqb negb Py.len]. rewrite Hint.
      cbn [Py.iter_slice_to]. rewrite slice_to_kept.
      rewrite (append_cogmo_docs_run _ _ _ Hfields). cbn.
      now rewrite join_spaced.
  - intros Hk. rewrite Hlen. unfold Stated.kept.
    destruct (0 <=? k) eqn:Hpos; lia.
  - intros Hunset. unfold search_top_k, Py.getenv in Hint.
    rewrite Hunset in Hint. cbn in Hint. congruence.
Qed.

(** *** The semantic part of the request *)

Lemma dict_lookup_set (d : dict) (key key' : string) (v : json) :
  Py.dict_lookup (Py.dict_set d key v) key'
    = if String.eqb key key' then Some v else Py.dict_lookup d key'.
Proof.
  induction d as [|[k w] d IH]; cbn.
  - reflexivity.
  - destruct (String.eqb k key) eqn:Hk; cbn.
    + apply String.eqb_eq in Hk as ->.
      destruct (String.eqb key key'); reflexivity.
    + rewrite IH. destruct (String.eqb key key') eqn:Hkey; [|reflexivity].
      apply String.eqb_eq in Hkey as <-. now rewrite Hk.
Qed.

Lemma approach_body_plain env input embeddings_query body :
  approach_body env input embeddings_query = Ok body ->
  plain_request body.
Proof.
  unfold approach_body, plain_request.
  destruct (String.eqb (search_approach env) TERM_SEARCH_APPROACH).
  { intros [= <-]. split; reflexivity. }
  destruct (String.eqb (search_approach env) VECTOR_SEARCH_APPROACH).
  { destruct (Py.int (search_top_k env)); intros [= <-]. split; reflexivity. }
  destruct (String.eqb (search_approach env) HYBRID_SEARCH_APPROACH).
  { destruct (Py.int (search_top_k env)); intros [= <-]. split; reflexivity. }
  intros [= <-]. split; reflexivity.
Qed.

Lemma semantic_test env :
  Py.eq_str (use_semantic env) "true"
  && negb (String.eqb (search_approach env) VECTOR_SEARCH_APPROACH) = true
  <-> semantic_enabled env.
Proof.
  unfold semantic_enabled, use_semantic, Py.getenv, Py.eq_str.
  rewrite andb_true_iff, negb_true_iff, String.eqb_neq.
  destruct (env !! "AZURE_SEARCH_USE_SEMANTIC") as [s|]; cbn.
  - rewrite String.eqb_eq. split; intros [H1 H2]; split; congruence.
  - split; intros [H1 H2]; discriminate.
Qed.

Lemma semantic_enabled_dec env :
  semantic_enabled env \/ ~ semantic_enabled env.
Proof.
  pose proof (semantic_test env) as Htest.
  destruct (Py.eq_str (use_semantic env) "true" && _).
  - left. now apply Htest.
  - right. intros H. apply Htest in H. discriminate.
Qed.

Lemma add_semantic_spec env body :
  plain_request body ->
  (semantic_enabled env -> semantic_request env (add_semantic env body)) /\
  (~ semantic_enabled env -> plain_request (add_semantic env body)).
Proof.
  intros [Hq Hc]. unfold add_semantic.
  pose proof (semantic_test env) as Htest.
  destruct (Py.eq_str (use_semantic env) "true" && _).
  - split; [intros _ | intros Hno; exfalso; apply Hno, Htest; reflexivity].
    unfold semantic_request. rewrite !dict_lookup_set. cbn. auto.
  - split; [intros Hyes; apply Htest in Hyes; discriminate | intros _].
    now split.
Qed.


End RetrievalFacts.

(** *** Runs on the sample answers *)

Lemma sample_search_responds (env : gmap string string) (docs : list json) :
  Py.int (Retrieval.search_top_k env) = Ok 3 ->
  Retrieval.search_responds env "q" (Retrieval.sample_world docs)
    (Retrieval.sample_response docs).
Proof.
  intros Hk. unfold Retrieval.search_responds. cbn.
  split; [reflexivity|]. split; [reflexivity|].
  unfold Retrieval.prepare_body, Retrieval.approach_body. rewrite Hk.
  destruct (String.eqb _ Retrieval.TERM_SEARCH_APPROACH); [eauto 10|].
  destruct (String.eqb _ Retrieval.VECTOR_SEARCH_APPROACH); [eauto 10|].
  destruct (String.eqb _ Retrieval.HYBRID_SEARCH_APPROACH); eauto 10.
Qed.

Lemma vector_retrieve_concatenates_witness :
  (exists entries,
     Forall2 Stated.entry_of
       [("one.md", " alpha "); ("two.md", "beta");
        ("three.md", "gamma"); ("four.md", "delta")] entries /\
     (forall others,
        Forall2 Stated.entry_of
          [("one.md", " alpha "); ("two.md", "beta");
           ("three.md", "gamma"); ("four.md", "delta")] others ->
        others = entries) /\
     snd (Retrieval.vector_index_retrieve ∅ "q"
            (Retrieval.sample_world Retrieval.sample_docs))
       = Ok (Stated.spaced entries)) /\
  snd (Retrieval.vector_index_retrieve ∅ "q"
         (Retrieval.sample_world Retrieval.sample_docs))
    = Ok ("one.md: alpha" +:+ Stated.line_feed +:+
          " two.md: beta" +:+ Stated.line_feed +:+
          " three.md: gamma" +:+ Stated.line_feed +:+
          " four.md: delta" +:+ Stated.line_feed).
Proof.
  split; [|vm_compute; reflexivity].
  eapply (vector_retrieve_concatenates ∅ "q"
            (Retrieval.sample_world Retrieval.sample_docs)
            (Retrieval.sample_response Retrieval.sample_docs)
            _ Retrieval.sample_docs).
  - apply sample_search_responds. reflexivity.
  - reflexivity.
  - reflexivity.
  - reflexivity.
  - discriminate.
  - repeat constructor.
Defined.

Lemma cogmo_search_top_k_witness :
  (exists entries,
     Forall2 Stated.entry_of [("One", " first "); ("Two", "second")] entries /\
     (forall others,
        Forall2 Stated.entry_of [("One", " first "); ("Two", "second")] others
        -> others = entries) /\
     snd (Retrieval.cogmo_search {[ "AZURE_SEARCH_TOP_K" := "2" ]} "q"
            (Retrieval.sample_world Retrieval.sample_docs))
       = Ok (Stated.spaced entries) /\
     length entries = Stated.kept 2 (length Retrieval.sample_docs) /\
     (0 <= 2 -> Z.of_nat (length entries) <= 2) /\
     (({[ "AZURE_SEARCH_TOP_K" := "2" ]} : gmap string string)
        !! "AZURE_SEARCH_TOP_K" = None -> 2 = 3)) /\
  snd (Retrieval.cogmo_search {[ "AZURE_SEARCH_TOP_K" := "2" ]} "q"
         (Retrieval.sample_world Retrieval.sample_docs))
    = Ok ("One: first" +:+ Stated.line_feed +:+
          " Two: second" +:+ Stated.line_feed).
Proof.
  split; [|vm_compute; reflexivity].
  eapply (cogmo_search_top_k {[ "AZURE_SEARCH_TOP_K" := "2" ]} "q"
            (Retrieval.sample_world Retrieval.sample_docs)
            (Retrieval.sample_response Retrieval.sample_docs)
            _ _ Retrieval.sample_docs 2).
  - reflexivity.
  - reflexivity.
  - reflexivity.
  - reflexivity.
  - reflexivity.
  - vm_compute. reflexivity.
  - repeat constructor.
Defined.

(** C8 as stated fails: with the limit [-1] and four documents received
    the result holds the entries of three of them, which is not at most
    minus one. *)
Lemma cogmo_search_negative_limit :
  Py.int (Retrieval.search_top_k {[ "AZURE_SEARCH_TOP_K" := "-1" ]})
    = Ok (-1) /\
  length Retrieval.sample_docs = 4%nat /\
  snd (Retrieval.cogmo_search {[ "AZURE_SEARCH_TOP_K" := "-1" ]} "q"
         (Retrieval.sample_world Retrieval.sample_docs))
    = Ok ("One: first" +:+ Stated.line_feed +:+
          " Two: second" +:+ Stated.line_feed +:+
          " Three: third" +:+ Stated.line_feed) /\
  ~ (3 <= -1).
Proof.
  split; [vm_compute; reflexivity|]. split; [reflexivity|].
  split; [vm_compute; reflexivity | lia].
Qed.


(** The client is built before the [try]: when its constructor raises, the
    exception leaves the function. *)
Lemma vector_retrieve_client_error :
  Retrieval.vector_index_retrieve ∅ "q" Retrieval.no_client
    = ([], Raise (ExternalError "missing configuration")).
Proof. reflexivity. Qed.

(** * Further properties *)

(** ** The retrieval tools, further *)

Section MoreRetrievalFacts.
Import Retrieval.

(** The calls of one invocation together with the answers that led to
    them. *)
Lemma vector_retrieve_request env input w url request_headers body :
  In (EvPost url request_headers body)
     (fst (vector_index_retrieve env input w)) ->
  exists embeddings_query azureSearchKey,
    embeddings w = Ok embeddings_query /\
    token w = Ok azureSearchKey /\
    prepare_body env input embeddings_query = Ok body /\
    url = search_endpoint env /\
    request_headers = headers azureSearchKey.
Proof.
  unfold vector_index_retrieve.
  destruct (client_init w); [|intros []].
  unfold try_block, Eff.bind, Eff.lift, call.
  destruct (credential_init w); [|intros []].
  destruct (embeddings w) as [emb|];
    [|cbn; intros [H | []]; discriminate].
  destruct (token w) as [key|];
    [|cbn; intros [H | [H | []]]; discriminate].
  destruct (prepare_body env input emb) as [body'|] eqn:Hbody;
    [|cbn; intros [H | [H | []]]; discriminate].
  assert (Hcalls :
    forall out : state * res unit,
      trace (fst out) =
        [EvEmbeddings input; EvGetToken token_scope;
         EvPost (search_endpoint env) (headers key) body'] ->
      In (EvPost url request_headers body) (fst (let '(s, _) := out in
         (trace s, Ok (PyStr.join " " (search_results s))))) ->
      exists embeddings_query azureSearchKey,
        Ok emb = Ok embeddings_query /\ Ok key = Ok azureSearchKey /\
        prepare_body env input embeddings_query = Ok body /\
        url = search_endpoint env /\
        request_headers = headers azureSearchKey).
  { intros [s o] Htrace Hin. cbn in Htrace, Hin. rewrite Htrace in Hin.
    destruct Hin as [H | [H | [H | []]]]; try discriminate.
    injection H as <- <- <-. exists emb, key. auto. }
  destruct (post_response w) as [r|e].
  - apply Hcalls. apply handle_response_trace.
  - intros Hin. eapply (Hcalls (_, Raise e)); [|exact Hin]. reflexivity.
Qed.

(** *** The request body *)

Lemma add_semantic_other env body key :
  key <> "queryType" -> key <> "semanticConfiguration" ->
  Py.dict_lookup (add_semantic env body) key = Py.dict_lookup body key.
Proof.
  intros Hq Hc. unfold add_semantic.
  destruct (Py.eq_str (use_semantic env) "true" && _); [|reflexivity].
  rewrite !dict_lookup_set.
  apply String.eqb_neq in Hq, Hc.
  rewrite String.eqb_sym in Hq. rewrite String.eqb_sym in Hc.
  now rewrite Hq, Hc.
Qed.

Lemma approach_body_lookup env input embeddings_query body :
  approach_body env input embeddings_query = Ok body ->
  Py.dict_lookup body "select"
    = Some (JStr "title, content, url, filepath, chunk_id") /\
  Py.dict_lookup body "top" = Some (Py.int_or_str (search_top_k env)) /\
  (search_approach env = TERM_SEARCH_APPROACH ->
   Py.dict_lookup body "search" = Some (JStr input) /\
   Py.dict_lookup body "vectorQueries" = None) /\
  (search_approach env = VECTOR_SEARCH_APPROACH ->
   Py.dict_lookup body "search" = None /\
   exists k, Py.int (search_top_k env) = Ok k /\
             Py.dict_lookup body "vectorQueries"
               = Some (vector_query embeddings_query k)) /\
  (search_approach env = HYBRID_SEARCH_APPROACH ->
   Py.dict_lookup body "search" = Some (JStr input) /\
   exists k, Py.int (search_top_k env) = Ok k /\
             Py.dict_lookup body "vectorQueries"
               = Some (vector_query embeddings_query k)) /\
  (unknown_approach env ->
   Py.dict_lookup body "search" = None /\
   Py.dict_lookup body "vectorQueries" = None).
Proof.
  unfold approach_body, unknown_approach.
  destruct (String.eqb (search_approach env) TERM_SEARCH_APPROACH) eqn:Hterm.
  { apply String.eqb_eq in Hterm. rewrite Hterm. intros [= <-].
    repeat split; try reflexivity; try discriminate; intuition congruence. }
  destruct (String.eqb (search_approach env) VECTOR_SEARCH_APPROACH)
    eqn:Hvector.
  { apply String.eqb_eq in Hvector. rewrite Hvector.
    destruct (Py.int (search_top_k env)) as [k|]; intros [= <-].
    repeat split; try reflexivity; try discriminate; eauto;
      intuition congruence. }
  destruct (String.eqb (search_approach env) HYBRID_SEARCH_APPROACH)
    eqn:Hhybrid.
  { apply String.eqb_eq in Hhybrid. rewrite Hhybrid.
    destruct (Py.int (search_top_k env)) as [k|]; intros [= <-].
    repeat split; try reflexivity; try discriminate; eauto;
      intuition congruence. }
  apply String.eqb_neq in Hterm, Hvector, Hhybrid. intros [= <-].
  repeat split; try reflexivity; try contradiction.
Qed.


(** The search request goes to the search index of the service named in
    the environment, the index being [ragindex] and the API version
    [2024-07-01] unless the environment says otherwise, and a service
    that is not set printing as [None]; it is sent as JSON, with the token
    the credential delivered as bearer token. *)
Theorem search_request_target env input w url request_headers body :
  In (EvPost url request_headers body)
     (fst (vector_index_retrieve env input w)) ->
  url = "https://" +:+ default "None" (env !! "AZURE_SEARCH_SERVICE")
        +:+ ".search.windows.net/indexes/"
        +:+ default "ragindex" (env !! "AZURE_SEARCH_INDEX")
        +:+ "/docs/search?api-version="
        +:+ default "2024-07-01" (env !! "AZURE_SEARCH_API_VERSION") /\
  exists azureSearchKey,
    token w = Ok azureSearchKey /\
    request_headers =
      [("Content-Type", JStr "application/json");
       ("Authorization", JStr ("Bearer " +:+ azureSearchKey))].
Proof.
  intros Hin.
  destruct (vector_retrieve_request _ _ _ _ _ _ Hin)
    as (emb & key & _ & Hkey & _ & -> & ->).
  split; [|now exists key].
  unfold search_endpoint, search_service, search_index, search_api_version,
    Py.getenv_str, Py.format_opt.
  destruct (env !! "AZURE_SEARCH_SERVICE"),
    (env !! "AZURE_SEARCH_INDEX"), (env !! "AZURE_SEARCH_API_VERSION");
    reflexivity.
Qed.

(** A limit that [int] cannot read stops the vector and the hybrid
    approach before the search request: none is sent, and the function
    returns the empty string. *)
Theorem unreadable_limit_no_request env input w e :
  Py.int (search_top_k env) = Raise e ->
  search_approach env = VECTOR_SEARCH_APPROACH \/
  search_approach env = HYBRID_SEARCH_APPROACH ->
  (forall url request_headers body,
     ~ In (EvPost url request_headers body)
          (fst (vector_index_retrieve env input w))) /\
  (client_init w = Ok tt ->
   snd (vector_index_retrieve env input w) = Ok EmptyString).
Proof.
  intros Hint Happroach.
  assert (Hbody : forall emb, exists e', prepare_body env input emb = Raise e').
  { intros emb. unfold prepare_body, approach_body. rewrite Hint.
    destruct Happroach as [-> | ->]; cbn; eauto. }
  split.
  - intros url request_headers body Hin.
    destruct (vector_retrieve_request _ _ _ _ _ _ Hin)
      as (emb & key & _ & _ & Hok & _).
    destruct (Hbody emb) as [e' He']. congruence.
  - intros Hclient. unfold vector_index_retrieve. rewrite Hclient.
    unfold try_block, Eff.bind, Eff.lift, call.
    destruct (credential_init w); [|reflexivity].
    destruct (embeddings w) as [emb|]; [|reflexivity].
    destruct (token w) as [key|]; [|reflexivity].
    destruct (Hbody emb) as [e' ->]. reflexivity.
Qed.

(** *** Results *)

(** What the function returns once the service has answered: whatever
    the handling of the answer leaves in [search_results]. *)
Lemma vector_retrieve_after_response env input w r :
  search_responds env input w r ->
  exists s0,
    search_results s0 = [] /\
    snd (vector_index_retrieve env input w)
      = Ok (PyStr.join " " (search_results (fst (handle_response r s0)))).
Proof.
  intros (Hclient & Hcred & emb & key & body & Hemb & Hkey & Hbody & Hpost).
  unfold vector_index_retrieve. rewrite Hclient.
  unfold try_block, Eff.bind, Eff.lift, call.
  rewrite Hcred, Hemb, Hkey, Hbody, Hpost. cbn beta iota.
  match goal with
  | |- context [handle_response r ?s] =>
      exists s; split; [reflexivity|]; destruct (handle_response r s)
  end.
  reflexivity.
Qed.

(** An answer without documents, be the list empty, null or any other
    value Python takes for false, gives the empty string. *)
Theorem vector_retrieve_no_documents env input w r j value :
  search_responds env input w r ->
  json_body r = Ok j ->
  Py.getitem j "value" = Ok value ->
  Py.truthy value = false ->
  snd (vector_index_retrieve env input w) = Ok EmptyString.
Proof.
  intros Hresp Hjson Hvalue Hfalse.
  destruct (vector_retrieve_after_response _ _ _ _ Hresp)
    as (s0 & Hs0 & ->).
  unfold handle_response, Eff.bind, Eff.lift. rewrite Hjson.
  destruct (status_code r >=? 400); cbn; [now rewrite Hs0|].
  rewrite Hvalue, Hfalse. cbn. now rewrite Hs0.
Qed.

Lemma append_doc_broken doc (s : state) :
  doc_broken doc -> exists e, append_doc doc s = (s, Raise e).
Proof.
  intros Hbroken. unfold append_doc, Eff.bind, Eff.lift.
  destruct (Py.getitem doc "filepath") as [path|e1] eqn:Hpath; [|eauto].
  destruct path as [| | | |p| |]; cbn; eauto.
  destruct (Py.getitem doc "content") as [content|e2] eqn:Hcontent; [|eauto].
  destruct content as [| | | |c| |]; cbn; eauto.
  exfalso. apply Hbroken. exists (p, c). split; assumption.
Qed.

Lemma append_docs_until_broken good bad rest fields (s : state) :
  Forall2 doc_fields good fields ->
  doc_broken bad ->
  exists e,
    for_each (good ++ bad :: rest) append_doc s =
      ({| trace := trace s;
          search_results := search_results s ++ map entry fields |},
       Raise e).
Proof.
  intros Hgood Hbad. revert s.
  induction Hgood as [|doc f good fields Hdoc _ IH]; intros s.
  - cbn [app for_each]. unfold Eff.bind.
    destruct (append_doc_broken bad s Hbad) as [e ->].
    exists e. cbn. now rewrite state_eta.
  - cbn [app for_each]. unfold Eff.bind.
    rewrite (append_doc_run _ _ _ Hdoc).
    destruct (IH {| trace := trace s;
                    search_results := search_results s ++ [entry f] |})
      as [e He].
    exists e. unfold Eff.bind in He. rewrite He. cbn.
    now rewrite <- app_assoc.
Qed.

Lemma entry_not_empty fields : entry fields <> EmptyString.
Proof.
  unfold entry. destruct fields as [[|c path] content]; discriminate.
Qed.

Lemma join_empty (parts : list string) :
  (forall p, In p parts -> p <> EmptyString) ->
  PyStr.join " " parts = EmptyString -> parts = [].
Proof.
  destruct parts as [|p [|q parts]]; intros Hparts Hjoin; [reflexivity| |].
  - cbn in Hjoin. exfalso. apply (Hparts p); [now left | exact Hjoin].
  - exfalso. apply (Hparts p); [now left|].
    cbn [PyStr.join] in Hjoin. destruct p; [reflexivity | discriminate].
Qed.

(** C2, as the code has it.  When building the credential, the embedding
    call, the token request, the HTTP request, [response.json()] or the
    reading of the document list raises, or the service answers with a
    status of 400 or more, the function returns the empty string and
    raises nothing.  When reading a document of the answer raises, the
    function raises nothing either, and returns the entries of the
    documents before that one: the empty string exactly when there is
    none before it. *)
Theorem vector_retrieve_swallows_failures env input w :
  client_init w = Ok tt ->
  (search_fails w ->
   snd (vector_index_retrieve env input w) = Ok EmptyString) /\
  (forall r j good bad rest fields,
     search_responds env input w r ->
     status_code r < 400 ->
     json_body r = Ok j ->
     Py.getitem j "value" = Ok (JArr (good ++ bad :: rest)) ->
     Forall2 doc_fields good fields ->
     doc_broken bad ->
     exists entries,
       Forall2 Stated.entry_of fields entries /\
       (forall others, Forall2 Stated.entry_of fields others ->
                       others = entries) /\
       snd (vector_index_retrieve env input w) = Ok (Stated.spaced entries) /\
       (snd (vector_index_retrieve env input w) = Ok EmptyString
        <-> good = [])).
Proof.
  intros Hclient. split.
  - now apply failure_before_documents.
  - intros r j good bad rest fields Hresp Hstatus Hjson Hvalue Hgood Hbad.
    destruct (entries_are_entries fields) as [Hentries Hunique].
    exists (map entry fields). split; [exact Hentries|].
    split; [exact Hunique|].
    destruct (vector_retrieve_after_response _ _ _ _ Hresp)
      as (s0 & Hs0 & ->).
    unfold handle_response, Eff.bind, Eff.lift. rewrite Hjson.
    destruct (status_code r >=? 400) eqn:Hge; [lia|].
    rewrite Hvalue.
    assert (Htruthy : Py.truthy (JArr (good ++ bad :: rest)) = true).
    { cbn. rewrite length_app. cbn. now rewrite Nat.add_succ_r. }
    rewrite Htruthy. cbn [Py.len Py.iter].
    destruct (append_docs_until_broken good bad rest fields s0 Hgood Hbad)
      as [e ->].
    cbn. rewrite Hs0. cbn. split; [now rewrite join_spaced|].
    split.
    + intros [= Hjoin]. apply join_empty in Hjoin.
      * destruct Hgood; [reflexivity | discriminate].
      * intros p Hp. apply in_map_iff in Hp as (f & <- & _).
        apply entry_not_empty.
    + intros ->. inversion Hgood. reflexivity.
Qed.

(** After a successful answer the empty string means that the service
    sent no document: one document already makes the result non-empty. *)
Theorem vector_retrieve_empty_iff env input w r j docs fields :
  search_responds env input w r ->
  status_code r < 400 ->
  json_body r = Ok j ->
  Py.getitem j "value" = Ok (JArr docs) ->
  Forall2 doc_fields docs fields ->
  snd (vector_index_retrieve env input w) = Ok EmptyString <-> docs = [].
Proof.
  intros Hresp Hstatus Hjson Hvalue Hdocs.
  destruct (vector_retrieve_after_response _ _ _ _ Hresp)
    as (s0 & Hs0 & ->).
  rewrite (handle_response_run _ _ _ _ _ Hstatus Hjson Hvalue Hdocs).
  cbn [fst search_results]. rewrite Hs0. cbn [app].
  split.
  - intros [= Hjoin]. apply join_empty in Hjoin.
    + destruct Hdocs; [reflexivity | discriminate].
    + intros p Hp. apply in_map_iff in Hp as (f & <- & _).
      apply entry_not_empty.
  - intros ->. inversion Hdocs. reflexivity.
Qed.

(** *** [cogmo_search] *)

Lemma cogmo_after_response env input w r :
  get_response w = Ok r ->
  exists s0,
    search_results s0 = [] /\
    snd (cogmo_search env input w)
      = Ok (PyStr.join " "
              (search_results (fst (handle_cogmo_response env r s0)))).
Proof.
  intros Hget. unfold cogmo_search, cogmo_try_block, Eff.bind, call.
  rewrite Hget. cbn beta iota.
  match goal with
  | |- context [handle_cogmo_response env r ?s] =>
      exists s; split; [reflexivity|];
      destruct (handle_cogmo_response env r s)
  end.
  reflexivity.
Qed.

(** When the GET request or the parsing of its answer raises, or the
    service answers with a status of 400 or more, [cogmo_search] returns
    the empty string; it has made its one request all the same. *)
Theorem cogmo_search_failure_empty env input w :
  cogmo_fails w ->
  cogmo_search env input w
    = ([EvGet (cogmo_endpoint env) [("query", JStr input)]],
       Ok EmptyString).
Proof.
  intros Hfail.
  rewrite (surjective_pairing (cogmo_search env input w)), cogmo_calls.
  f_equal.
  destruct Hfail as [[e Hget] | (r & Hget & Hfail)].
  - unfold cogmo_search, cogmo_try_block, Eff.bind, call.
    now rewrite Hget.
  - destruct (cogmo_after_response env input w r Hget) as (s0 & Hs0 & ->).
    unfold handle_cogmo_response, Eff.bind, Eff.lift.
    destruct Hfail as [[e Hjson] | [Hstatus | [(j & e & Hjson & Hresp) |
                       (j & resp & e & Hjson & Hresp & Hdocs)]]].
    + rewrite Hjson. cbn. now rewrite Hs0.
    + destruct (json_body r); cbn; [|now rewrite Hs0].
      destruct (status_code r >=? 400) eqn:Hge; [|lia].
      cbn. now rewrite Hs0.
    + rewrite Hjson. destruct (status_code r >=? 400); cbn;
        [now rewrite Hs0|].
      rewrite Hresp. cbn. now rewrite Hs0.
    + rewrite Hjson. destruct (status_code r >=? 400); cbn;
        [now rewrite Hs0|].
      rewrite Hresp, Hdocs. cbn. now rewrite Hs0.
Qed.

(** A limit that [int] cannot read makes [cogmo_search] return the empty
    string whatever the service answers. *)
Theorem cogmo_search_unreadable_limit env input w e :
  Py.int (search_top_k env) = Raise e ->
  snd (cogmo_search env input w) = Ok EmptyString.
Proof.
  intros Hint.
  destruct (get_response w) as [r|e'] eqn:Hget.
  - destruct (cogmo_after_response env input w r Hget) as (s0 & Hs0 & ->).
    unfold handle_cogmo_response, Eff.bind, Eff.lift.
    destruct (json_body r) as [j|]; cbn; [|now rewrite Hs0].
    destruct (status_code r >=? 400); cbn; [now rewrite Hs0|].
    destruct (Py.getitem j "response") as [resp|]; cbn; [|now rewrite Hs0].
    destruct (Py.getitem resp "docs") as [docs|]; cbn; [|now rewrite Hs0].
    destruct (Py.truthy docs); cbn; [|now rewrite Hs0].
    destruct (Py.len docs); cbn; [|now rewrite Hs0].
    rewrite Hint. cbn. now rewrite Hs0.
  - unfold cogmo_search, cogmo_try_block, Eff.bind, call.
    now rewrite Hget.
Qed.

End MoreRetrievalFacts.

(** ** The strategies, further *)

Ltac next_call :=
  match goal with
  | |- context [match ?x with Ok _ => _ | Raise _ => _ end] => destruct x
  end;
  cbn beta iota zeta.

Section MoreStrategyFacts.
Import Strategy.

Context {LLMConfig History : Type}.
Implicit Types (autogen : framework LLMConfig) (self : base_strategy History)
  (h : heap LLMConfig).

(** After a run of the advisor strategy that returns, the user proxy
    executes all six tools and is offered none; the assistant is offered
    five of them and the advisor the validation of queries only; so every
    tool an agent may ask for is one the user proxy can run.  The agents
    created before the call stay as they were. *)
Theorem advisor_tools_registered
    autogen self llm (history : History) h h' r :
  NL2SQLAdvisorStrategy.create_agents autogen self llm history h
    = (h', Ok r) ->
  exists user_proxy assistant advisor,
    h' = h ++ [user_proxy; assistant; advisor] /\
    function_map user_proxy =
      ["get_schema_info"; "get_all_tables_info"; "execute_sql_query";
       "validate_sql_query"; "get_today_date"; "get_time"] /\
    tools_offered user_proxy = [] /\
    tools_offered assistant =
      ["get_schema_info"; "get_all_tables_info"; "execute_sql_query";
       "get_today_date"; "get_time"] /\
    function_map assistant = [] /\
    tools_offered advisor = ["validate_sql_query"] /\
    function_map advisor = [] /\
    (forall tool,
       In tool (tools_offered assistant ++ tools_offered advisor) ->
       In tool (function_map user_proxy)).
Proof.
  intros Hrun.
  apply advisor_returned in Hrun
    as (p1 & s & p2 & p3 & _ & _ & _ & _ & -> & _).
  eexists _, _, _. split; [reflexivity|].
  cbn. repeat split. intuition auto.
Qed.

(** After a run of the few-shot strategy that returns, the assistant is
    offered five tools, the retrieval of similar queries among them, and
    the user proxy executes exactly those five.  The agents created before
    the call stay as they were. *)
Theorem fewshot_tools_registered
    autogen self llm (history : History) h h' r :
  NL2SQLSingleAgentFewshotCreationStrategy.create_agents
    autogen self llm history h = (h', Ok r) ->
  exists user_proxy assistant,
    h' = h ++ [user_proxy; assistant] /\
    tools_offered assistant =
      ["get_schema_info"; "get_all_tables_info"; "validate_sql_query";
       "execute_sql_query"; "vector_index_retrieve"] /\
    function_map user_proxy = tools_offered assistant /\
    tools_offered user_proxy = [] /\
    function_map assistant = [].
Proof.
  intros Hrun.
  apply fewshot_returned in Hrun as (p1 & s & p2 & _ & _ & _ & -> & _).
  eexists _, _. split; [reflexivity|].
  cbn. repeat split.
Qed.

(** Telling an agent of a tool, or having it execute one, changes neither
    its system message nor its LLM configuration. *)
Lemma system_message_llm_tool tool descr (i : nat) h :
  map system_message (alter (add_llm_tool tool descr) i h)
  = map system_message h.
Proof.
  revert i. induction h as [|a h IH]; intros [|i]; cbn; try reflexivity.
  now rewrite <- (IH i).
Qed.

Lemma system_message_function tool (i : nat) h :
  map system_message (alter (add_function tool) i h) = map system_message h.
Proof.
  revert i. induction h as [|a h IH]; intros [|i]; cbn; try reflexivity.
  now rewrite <- (IH i).
Qed.

Lemma llm_config_llm_tool tool descr (i : nat) h :
  map llm_config (alter (add_llm_tool tool descr) i h) = map llm_config h.
Proof.
  revert i. induction h as [|a h IH]; intros [|i]; cbn; try reflexivity.
  now rewrite <- (IH i).
Qed.

Lemma llm_config_function tool (i : nat) h :
  map llm_config (alter (add_function tool) i h) = map llm_config h.
Proof.
  revert i. induction h as [|a h IH]; intros [|i]; cbn; try reflexivity.
  now rewrite <- (IH i).
Qed.

Ltac registered_or_not :=
  repeat next_call; cbn [fst];
  repeat first
    [ rewrite system_message_function | rewrite system_message_llm_tool
    | rewrite llm_config_function | rewrite llm_config_llm_tool ];
  rewrite !map_app; cbn [map]; rewrite <- ?app_assoc; split; reflexivity.



Lemma existsb_is_str (needle : string) (parts : list json) :
  existsb (Py.is_str needle) parts = true <-> In (JStr needle) parts.
Proof.
  rewrite existsb_exists. split.
  - intros (v & Hin & Hv). destruct v; try discriminate.
    apply String.eqb_eq in Hv as ->. exact Hin.
  - intros Hin. exists (JStr needle). split; [exact Hin|].
    cbn. apply String.eqb_refl.
Qed.

(** The predicate raises exactly when the content is a number or a
    boolean, with a [TypeError]; a message without content, or with a null
    one, is simply not a termination message, and a content that is a list
    is searched for the token as an element, not as a substring. *)
Theorem termination_lambda_edges (msg : dict) :
  (forall e, termination_lambda msg = Raise e <->
             e = TypeError /\
             exists v, Py.dict_lookup msg "content" = Some v /\
                       is_number v = true) /\
  (Py.dict_lookup msg "content" = None \/
   Py.dict_lookup msg "content" = Some JNull ->
   termination_lambda msg = Ok false) /\
  (forall parts,
     Py.dict_lookup msg "content" = Some (JArr parts) ->
     exists b, termination_lambda msg = Ok b /\
               (b = true <-> In (JStr "TERMINATE") parts)).
Proof.
  unfold termination_lambda, Py.dict_get.
  destruct (Py.dict_lookup msg "content") as [[| | | |s|parts|d]|];
    cbn [Py.contains]; (split; [|split]).
  all: try (intros e; split;
            [discriminate
            | intros (_ & v & [= <-] & Hv); discriminate]).
  all: try (intros e; split;
            [intros [= <-]; split; [reflexivity | eauto]
            | intros (-> & _); reflexivity]).
  all: try (intros [H | H]; (discriminate || reflexivity)).
  all: try (intros parts' H; discriminate).
  all: try (intros e; split; [discriminate | intros (_ & v & H & _); discriminate]).
  intros parts' [= <-]. eexists. split; [reflexivity|].
  apply existsb_is_str.
Qed.

End MoreStrategyFacts.

Section TermApproach.
Import Retrieval.

(** With the term approach, or one the function does not know, the request
    body is built without the embedding and without reading the limit as a
    number: it is the same for every embedding, and an unreadable limit
    does not stop the request. *)
Theorem term_body_needs_no_embedding env input :
  search_approach env = TERM_SEARCH_APPROACH \/ unknown_approach env ->
  forall embeddings_query,
    exists body,
      prepare_body env input embeddings_query = Ok body /\
      forall other, prepare_body env input other = Ok body.
Proof.
  intros Happroach emb. unfold prepare_body, approach_body.
  destruct Happroach as [Hterm | (Hterm & Hvector & Hhybrid)].
  - rewrite Hterm. cbn. eauto.
  - apply String.eqb_neq in Hterm, Hvector, Hhybrid.
    rewrite Hterm, Hvector, Hhybrid. eauto.
Qed.

End TermApproach.

Section CreationFrame.
Import Strategy.

Context {LLMConfig History : Type}.
Implicit Types (autogen : framework LLMConfig) (self : base_strategy History)
  (h : heap LLMConfig).

Ltac only_added h :=
  cbn [fst]; rewrite ?length_app; cbn [length];
  rewrite <- ?app_assoc; cbn [app];
  repeat (rewrite (alter_app_r_alt _ h) by lia);
  eexists; split; [first [reflexivity | symmetry; apply app_nil_r]|];
  rewrite ?length_alter; cbn [length]; lia.

(** Whether it returns or raises, [create_agents] only adds agents to the
    heap, three at most in the advisor strategy and two at most in the
    few-shot strategy: the agents that were there are neither changed nor
    removed. *)
Theorem create_agents_only_adds autogen self llm (history : History) h :
  (exists added,
     fst (NL2SQLAdvisorStrategy.create_agents autogen self llm history h)
       = h ++ added /\ (length added <= 3)%nat) /\
  (exists added,
     fst (NL2SQLSingleAgentFewshotCreationStrategy.create_agents
            autogen self llm history h)
       = h ++ added /\ (length added <= 2)%nat).
Proof.
  split.
  - unfold NL2SQLAdvisorStrategy.create_agents, Eff.bind, Eff.lift, Eff.ret,
      new, register_function.
    repeat next_call; only_added h.
  - unfold NL2SQLSingleAgentFewshotCreationStrategy.create_agents,
      Eff.bind, Eff.lift, Eff.ret, new, register_function.
    repeat next_call; only_added h.
Qed.

End CreationFrame.

(** *** Runs on the sample answers, further *)

(** C2 as stated fails: the second document of the answer has no content,
    reading it raises, and the function returns the entry of the first
    document, not the empty string. *)
Lemma vector_retrieve_partial_result :
  Retrieval.search_responds ∅ "q"
    (Retrieval.sample_world Retrieval.broken_docs)
    (Retrieval.sample_response Retrieval.broken_docs) /\
  (forall s,
     Retrieval.append_doc (JObj [("filepath", JStr "two.md")]) s
       = (s, Raise (KeyError "content"))) /\
  snd (Retrieval.vector_index_retrieve ∅ "q"
         (Retrieval.sample_world Retrieval.broken_docs))
    = Ok ("one.md: alpha" +:+ Stated.line_feed) /\
  snd (Retrieval.vector_index_retrieve ∅ "q"
         (Retrieval.sample_world Retrieval.broken_docs))
    <> Ok EmptyString.
Proof.
  split; [apply sample_search_responds; reflexivity|].
  split; [reflexivity|].
  split; [vm_compute; reflexivity | vm_compute; discriminate].
Qed.

Lemma vector_retrieve_swallows_failures_witness :
  (Retrieval.search_fails Retrieval.embeddings_down /\
   snd (Retrieval.vector_index_retrieve ∅ "q" Retrieval.embeddings_down)
     = Ok EmptyString) /\
  (exists entries,
     Forall2 Stated.entry_of [("one.md", " alpha ")] entries /\
     (forall others,
        Forall2 Stated.entry_of [("one.md", " alpha ")] others ->
        others = entries) /\
     snd (Retrieval.vector_index_retrieve ∅ "q"
            (Retrieval.sample_world Retrieval.broken_docs))
       = Ok (Stated.spaced entries) /\
     (snd (Retrieval.vector_index_retrieve ∅ "q"
             (Retrieval.sample_world Retrieval.broken_docs))
        = Ok EmptyString
      <-> [JObj [("filepath", JStr "one.md");
                 ("content", JStr " alpha ")]] = [])).
Proof.
  split.
  - assert (Hfails : Retrieval.search_fails Retrieval.embeddings_down).
    { right. left. eexists. reflexivity. }
    split; [exact Hfails|].
    exact (proj1 (vector_retrieve_swallows_failures
                    ∅ "q" Retrieval.embeddings_down eq_refl) Hfails).
  - eapply (proj2 (vector_retrieve_swallows_failures
                     ∅ "q" (Retrieval.sample_world Retrieval.broken_docs)
                     eq_refl)
              (Retrieval.sample_response Retrieval.broken_docs) _
              [JObj [("filepath", JStr "one.md");
                     ("content", JStr " alpha ")]]
              (JObj [("filepath", JStr "two.md")]) []).
    + apply sample_search_responds. reflexivity.
    + reflexivity.
    + reflexivity.
    + reflexivity.
    + repeat constructor.
    + intros (fields & _ & Hcontent). discriminate.
Defined.


Lemma search_request_target_witness :
  exists url request_headers body,
    In (Retrieval.EvPost url request_headers body)
       (fst (Retrieval.vector_index_retrieve
               {[ "AZURE_SEARCH_SERVICE" := "docs" ]} "q"
               (Retrieval.sample_world Retrieval.sample_docs))) /\
    url = "https://docs.search.windows.net/indexes/ragindex/docs/search?api-version=2024-07-01" /\
    request_headers =
      [("Content-Type", JStr "application/json");
       ("Authorization", JStr "Bearer key")].
Proof.
  assert (Hsent : exists url request_headers body,
             In (Retrieval.EvPost url request_headers body)
                (fst (Retrieval.vector_index_retrieve
                        {[ "AZURE_SEARCH_SERVICE" := "docs" ]} "q"
                        (Retrieval.sample_world Retrieval.sample_docs)))).
  { vm_compute. eexists _, _, _. right; right; left; reflexivity. }
  destruct Hsent as (url & request_headers & body & Hin).
  exists url, request_headers, body. split; [exact Hin|].
  destruct (search_request_target _ _ _ _ _ _ Hin)
    as (Hurl & key & Hkey & Hheaders).
  injection Hkey as <-. split; [exact Hurl | exact Hheaders].
Defined.

Lemma unreadable_limit_no_request_witness :
  Py.int (Retrieval.search_top_k
            {[ "AZURE_SEARCH_TOP_K" := String (ascii_of_nat 28) "2" ]})
    = Raise ValueError /\
  snd (Retrieval.vector_index_retrieve
         {[ "AZURE_SEARCH_TOP_K" := String (ascii_of_nat 28) "2" ]} "q"
         (Retrieval.sample_world Retrieval.sample_docs)) = Ok EmptyString.
Proof.
  assert (Hint : Py.int (Retrieval.search_top_k
                   {[ "AZURE_SEARCH_TOP_K" := String (ascii_of_nat 28) "2" ]})
                 = Raise ValueError) by (vm_compute; reflexivity).
  split; [exact Hint|].
  apply (unreadable_limit_no_request
           {[ "AZURE_SEARCH_TOP_K" := String (ascii_of_nat 28) "2" ]} "q"
           (Retrieval.sample_world Retrieval.sample_docs) ValueError Hint).
  - right. reflexivity.
  - reflexivity.
Defined.

Lemma vector_retrieve_no_documents_witness :
  snd (Retrieval.vector_index_retrieve ∅ "q" (Retrieval.sample_world []))
    = Ok EmptyString.
Proof.
  eapply (vector_retrieve_no_documents ∅ "q" (Retrieval.sample_world [])
            (Retrieval.sample_response [])).
  - apply sample_search_responds. reflexivity.
  - reflexivity.
  - reflexivity.
  - reflexivity.
Defined.

Lemma vector_retrieve_empty_iff_witness :
  snd (Retrieval.vector_index_retrieve ∅ "q"
         (Retrieval.sample_world Retrieval.sample_docs)) = Ok EmptyString
  <-> Retrieval.sample_docs = [].
Proof.
  eapply (vector_retrieve_empty_iff ∅ "q"
            (Retrieval.sample_world Retrieval.sample_docs)
            (Retrieval.sample_response Retrieval.sample_docs) _
            Retrieval.sample_docs
            [("one.md", " alpha "); ("two.md", "beta");
             ("three.md", "gamma"); ("four.md", "delta")]).
  - apply sample_search_responds. reflexivity.
  - reflexivity.
  - reflexivity.
  - reflexivity.
  - repeat constructor.
Defined.

Lemma cogmo_search_failure_empty_witness :
  Retrieval.cogmo_fails Retrieval.cogmo_down /\
  Retrieval.cogmo_search ∅ "q" Retrieval.cogmo_down
    = ([Retrieval.EvGet (Retrieval.cogmo_endpoint ∅) [("query", JStr "q")]],
       Ok EmptyString).
Proof.
  assert (Hfails : Retrieval.cogmo_fails Retrieval.cogmo_down).
  { left. eexists. reflexivity. }
  split; [exact Hfails|].
  exact (cogmo_search_failure_empty ∅ "q" Retrieval.cogmo_down Hfails).
Defined.

Lemma cogmo_search_unreadable_limit_witness :
  snd (Retrieval.cogmo_search
         {[ "AZURE_SEARCH_TOP_K" := String (ascii_of_nat 28) "2" ]} "q"
         (Retrieval.sample_world Retrieval.sample_docs)) = Ok EmptyString.
Proof.
  apply (cogmo_search_unreadable_limit
           {[ "AZURE_SEARCH_TOP_K" := String (ascii_of_nat 28) "2" ]} "q"
           (Retrieval.sample_world Retrieval.sample_docs) ValueError).
  vm_compute. reflexivity.
Defined.

Lemma term_body_needs_no_embedding_witness :
  exists body,
    Retrieval.prepare_body {[ "AZURE_SEARCH_APPROACH" := "term" ]} "q" [0; 1]
      = Ok body /\
    forall other,
      Retrieval.prepare_body {[ "AZURE_SEARCH_APPROACH" := "term" ]} "q" other
        = Ok body.
Proof.
  apply (term_body_needs_no_embedding
           {[ "AZURE_SEARCH_APPROACH" := "term" ]} "q").
  left. reflexivity.
Defined.

Lemma advisor_tools_registered_witness :
  exists (h' : Strategy.heap unit) r,
    NL2SQLAdvisorStrategy.create_agents
      Strategy.lenient (Strategy.echo_base "summary") tt tt [] = (h', Ok r) /\
    exists user_proxy assistant advisor,
      h' = [] ++ [user_proxy; assistant; advisor] /\
      Strategy.function_map user_proxy =
        ["get_schema_info"; "get_all_tables_info"; "execute_sql_query";
         "validate_sql_query"; "get_today_date"; "get_time"] /\
      Strategy.tools_offered user_proxy = [] /\
      Strategy.tools_offered assistant =
        ["get_schema_info"; "get_all_tables_info"; "execute_sql_query";
         "get_today_date"; "get_time"] /\
      Strategy.function_map assistant = [] /\
      Strategy.tools_offered advisor = ["validate_sql_query"] /\
      Strategy.function_map advisor = [] /\
      (forall tool,
         In tool (Strategy.tools_offered assistant
                  ++ Strategy.tools_offered advisor) ->
         In tool (Strategy.function_map user_proxy)).
Proof.
  eexists _, _.
  refine ((fun Hrun =>
             conj Hrun (advisor_tools_registered _ _ _ _ _ _ _ Hrun)) _).
  cbv. reflexivity.
Defined.

Lemma fewshot_tools_registered_witness :
  exists (h' : Strategy.heap unit) r,
    NL2SQLSingleAgentFewshotCreationStrategy.create_agents
      Strategy.lenient (Strategy.echo_base "summary") tt tt [] = (h', Ok r) /\
    exists user_proxy assistant,
      h' = [] ++ [user_proxy; assistant] /\
      Strategy.tools_offered assistant =
        ["get_schema_info"; "get_all_tables_info"; "validate_sql_query";
         "execute_sql_query"; "vector_index_retrieve"] /\
      Strategy.function_map user_proxy = Strategy.tools_offered assistant /\
      Strategy.tools_offered user_proxy = [] /\
      Strategy.function_map assistant = [].
Proof.
  eexists _, _.
  refine ((fun Hrun =>
             conj Hrun (fewshot_tools_registered _ _ _ _ _ _ _ Hrun)) _).
  cbv. reflexivity.
Defined.


